(** * Robotic testing backend: ingestion, validation and fan-out

    A shallow embedding of [app/services/validation.py],
    [app/services/data_manager.py], [app/models/sensor.py],
    [app/core/config.py] and the session routes of
    [app/api/routes/sessions.py], with the properties the specification
    states about them.

    Conventions of the embedding.
    - A Python number is the rational [Q] it denotes.  The order tests of
      the source ([>], [<]) and [abs] are exact, as they are in Python.
      Every product, difference and quotient of readings, thresholds and
      times is one of floats: it is rounded to the nearest binary64 number,
      ties to even ([round64]); the literal [0.8] is the binary64 number
      [float_0_8].
      An [int] is taken as the [float] of the same value, which it is up to
      [2^53]; larger [int]s, and results beyond the largest binary64 number
      ([inf] in Python), are outside the embedding.
    - A method that mutates [self] is a function from the old object to the
      new one; a method that can raise returns an [outcome] next to the
      object, because what it changed before raising stays changed.
    - Clock reads ([time.time()], [loop.time()]) and fresh identifiers are
      arguments of the function that makes them.
    - What a call sends to the connected clients is returned as a [trace],
      the successful [send_text] calls in the order they were made.  Whether
      a [send_text] succeeds is decided by the environment, a parameter.
    - Every method runs from its first line to its last without another
      coroutine or thread running in between: the [await] points are not
      points of interleaving here, and the simulator threads are left out. *)

From Stdlib Require Import QArith Qabs Lqa.
From Stdlib Require Import Floats.
From stdpp Require Import gmap strings list fin_maps functions.

Local Open Scope Z_scope.

(** ** Python values and exceptions *)

Inductive exn : Type :=
  | TypeError
  | AttributeError
  | IndexError
  | ZeroDivisionError
  | HTTPException (status_code : Z) (detail : string).

Inductive outcome (A : Type) : Type :=
  | Return (a : A)
  | Raise (e : exn).
Arguments Return {A} a.
Arguments Raise {A} e.

(** [x > y] and [x < y] on Python numbers. *)
Definition py_lt (x y : Q) : bool :=
  match (x ?= y)%Q with Lt => true | _ => false end.
Definition py_gt (x y : Q) : bool := py_lt y x.

(** The binary64 number nearest to [q], the even one of the two when [q] is
    half way (IEEE 754 round-to-nearest-even, 53 bits of precision,
    subnormal numbers below [2^-1022]).  For [|q|] in [[2^e, 2^(e+1))] the
    result is a multiple of [2^t], with [t = max (e - 52) (-1074)]. *)
Definition round64 (q : Q) : Q :=
  let n := Qnum q in
  let d := Zpos (Qden q) in
  if n =? 0 then 0%Q
  else
    let a := Z.abs n in
    let e0 := Z.log2 a - Z.log2 d in
    let below :=
      if 0 <=? e0 then a <? d * 2 ^ e0 else a * 2 ^ (- e0) <? d in
    let e := if below then e0 - 1 else e0 in
    let t := Z.max (e - 52) (-1074) in
    (* |q| / 2^t as the fraction N / D *)
    let N := if t <? 0 then a * 2 ^ (- t) else a in
    let D := if t <? 0 then d else d * 2 ^ t in
    let k := N / D in
    let r := N mod D in
    let k :=
      if 2 * r <? D then k
      else if D <? 2 * r then k + 1
      else if Z.even k then k else k + 1 in
    let k := if n <? 0 then - k else k in
    Qred (if t <? 0 then Qmake k (Z.to_pos (2 ^ (- t)))
          else inject_Z (k * 2 ^ t)).

(** [x * y], [x - y] and [x / y] on floats; the last one raises for a zero
    divisor. *)
Definition float_mul (x y : Q) : Q := round64 (x * y).
Definition float_sub (x y : Q) : Q := round64 (x - y).
Definition float_div (x y : Q) : outcome Q :=
  if Qeq_bool y 0 then Raise ZeroDivisionError else Return (round64 (x / y)).

(** The literal [0.8]: the binary64 number [0x1.999999999999ap-1]. *)
Definition float_0_8 : Q := 3602879701896397 # 4503599627370496.

(** The rational that a finite binary64 number of the kernel denotes, to
    compare [round64] with the kernel's arithmetic. *)
Definition binary64_value (f : float) : option Q :=
  match Prim2SF f with
  | S754_zero _ => Some 0%Q
  | S754_finite negative m e =>
      let k := if negative then Z.neg m else Z.pos m in
      Some (Qred (if e <? 0 then Qmake k (Z.to_pos (2 ^ (- e)))
                  else inject_Z (k * 2 ^ e)))
  | S754_infinity _ | S754_nan => None
  end.

(** The scalars found in a JSON-like payload ([Dict[str, Any]]). *)
Inductive pyval : Type :=
  | PNone
  | PBool (b : bool)
  | PNum (q : Q)
  | PStr (s : string).

(** [Union[float, int, Dict[str, Any]]], the type of [SensorReading.value]. *)
Inductive value : Type :=
  | VNum (q : Q)
  | VDict (d : gmap string pyval).

(** The operand of an order test: numbers compare, [bool] is an [int],
    anything else raises [TypeError]. *)
Definition as_number (p : pyval) : outcome Q :=
  match p with
  | PNum q => Return q
  | PBool b => Return (if b then 1%Q else 0%Q)
  | PNone | PStr _ => Raise TypeError
  end.

(** [l[start:]], with Python's rule for a negative or too large start. *)
Definition slice_from {A : Type} (start : Z) (l : list A) : list A :=
  let len := Z.of_nat (length l) in
  let i := if start <? 0 then Z.max 0 (start + len) else Z.min start len in
  drop (Z.to_nat i) l.

(** [l[i]], [None] standing for [IndexError]. *)
Definition index {A : Type} (l : list A) (i : Z) : option A :=
  let len := Z.of_nat (length l) in
  let j := if i <? 0 then i + len else i in
  if j <? 0 then None else l !! Z.to_nat j.

(** An f-string: its literal pieces and the values formatted into it. *)
Inductive fpart : Type :=
  | Lit (s : string)
  | Fmt (v : value)
  | FmtNum (q : Q)
  | FmtVal (p : pyval).
Definition fstring : Type := list fpart.

(** ** app/models/sensor.py *)

Inductive SensorType : Type := FORCE | MOTOR | CAMERA.

#[global] Instance SensorType_eq_dec : EqDecision SensorType.
Proof. solve_decision. Defined.

#[global] Instance SensorType_countable : Countable SensorType.
Proof.
  refine (inj_countable'
            (fun t => match t with FORCE => 0%nat | MOTOR => 1%nat | CAMERA => 2%nat end)
            (fun n => match n with 0%nat => FORCE | 1%nat => MOTOR | _ => CAMERA end) _).
  intros []; reflexivity.
Defined.

(** [SensorType.value], the string behind each member. *)
Definition SensorType_value (t : SensorType) : string :=
  match t with
  | FORCE => "force"
  | MOTOR => "motor"
  | CAMERA => "camera"
  end.

Inductive ValidationStatus : Type := VALID | WARNING | ERROR.

Module SensorReading.
Record t : Type := Build {
  timestamp : Q;
  sensor_type : SensorType;
  value : value;
}.
End SensorReading.

(** A value stored under a key of [ValidationResult.details]. *)
Inductive detail : Type :=
  | DScalar (p : pyval)
  | DValue (v : value)
  | DValues (l : list value).

Module ValidationResult.
Record t : Type := Build {
  sensor_type : SensorType;
  status : ValidationStatus;
  message : fstring;
  timestamp : Q;
  details : gmap string detail;
}.
End ValidationResult.

Module SystemStatus.
Record t : Type := Build {
  force_sensor : bool;
  motor_controller : bool;
  camera : bool;
  recording : bool;
  uptime_seconds : Q;
  data_points_collected : Z;
}.
End SystemStatus.

(** ** app/core/config.py

    The fields of [Settings] that the services read.  They can be
    overridden from the environment, so they are a record and not
    constants; [settings] holds the defaults. *)

Record Settings : Type := {
  MAX_DATA_POINTS : Z;
  FORCE_THRESHOLD_HIGH : Q;
  MOTOR_THRESHOLD : Q;
}.

Definition settings : Settings :=
  {| MAX_DATA_POINTS := 10000;
     FORCE_THRESHOLD_HIGH := 80;
     MOTOR_THRESHOLD := 55 |}.

(** ** app/services/validation.py *)

(** One entry of a history list, the dict [{'timestamp': .., 'value': ..}]. *)
Module HistoryEntry.
Record t : Type := Build {
  timestamp : Q;
  value : value;
}.
End HistoryEntry.

Module DataValidator.

(** The object: its only attribute is [validation_history], a dict whose
    keys are the three members of [SensorType] from [__init__] on (no key
    is ever added or deleted): a total function on [SensorType]. *)
Record t : Type := Build {
  validation_history : SensorType -> list HistoryEntry.t;
}.

(** [DataValidator()] *)
Definition __init__ : t :=
  {| validation_history :=
       <[FORCE := []]> (<[MOTOR := []]> (<[CAMERA := []]> (fun _ => []))) |}.

Section WithSettings.
Variable settings : Settings.

(** [_detect_spike(values)] *)
Definition _detect_spike (values : list value) : outcome bool :=
  if (length values <? 3)%nat then Return false
  else
    match index values (-1), index values 0 with
    | Some (VNum last), Some (VNum first) =>
        let change := Qabs (float_sub last first) in
        Return (py_gt change 50)
    | Some _, Some _ => Raise TypeError
    | _, _ => Raise IndexError
    end.

(** [_validate_force_reading(reading)], at clock [current_time]. *)
Definition _validate_force_reading
    (current_time : Q) (self : t) (reading : SensorReading.t)
    : outcome (option ValidationResult.t) * t :=
  let force_value := SensorReading.value reading in
  (* Store for trend analysis *)
  let history :=
    validation_history self FORCE
      ++ [HistoryEntry.Build current_time force_value] in
  (* Keep only last 50 readings for analysis *)
  let history :=
    if (50 <? length history)%nat then slice_from (-50) history
    else history in
  let self :=
    {| validation_history :=
         <[FORCE := history]> (validation_history self) |} in
  match force_value with
  | VDict _ => (Raise TypeError, self)
  | VNum x =>
      (* Critical threshold check *)
      if py_gt x (FORCE_THRESHOLD_HIGH settings) then
        (Return (Some
           {| ValidationResult.sensor_type := FORCE;
              ValidationResult.status := ERROR;
              ValidationResult.message :=
                [Lit "Critical force level: "; Fmt force_value;
                 Lit "N exceeds ";
                 FmtNum (FORCE_THRESHOLD_HIGH settings); Lit "N"];
              ValidationResult.timestamp := current_time;
              ValidationResult.details :=
                <["threshold" :=
                    DScalar (PNum (FORCE_THRESHOLD_HIGH settings))]>
                (<["actual" := DValue force_value]>
                (<["severity" := DScalar (PStr "critical")]> ∅)) |}),
         self)
      (* Warning threshold *)
      else if py_gt x (float_mul (FORCE_THRESHOLD_HIGH settings) float_0_8)
      then
        match float_div x (FORCE_THRESHOLD_HIGH settings) with
        | Raise e => (Raise e, self)
        | Return ratio =>
            (Return (Some
               {| ValidationResult.sensor_type := FORCE;
                  ValidationResult.status := WARNING;
                  ValidationResult.message :=
                    [Lit "Force level "; Fmt force_value;
                     Lit "N approaching limit"];
                  ValidationResult.timestamp := current_time;
                  ValidationResult.details :=
                    <["threshold" :=
                        DScalar (PNum (FORCE_THRESHOLD_HIGH settings))]>
                    (<["actual" := DValue force_value]>
                    (<["percentage" :=
                         DScalar (PNum (float_mul ratio 100))]>
                     ∅)) |}),
             self)
        end
      (* Check for rapid changes (spike detection) *)
      else if (3 <=? length history)%nat then
        let recent_values :=
          map HistoryEntry.value (slice_from (-3) history) in
        match _detect_spike recent_values with
        | Raise e => (Raise e, self)
        | Return true =>
            (Return (Some
               {| ValidationResult.sensor_type := FORCE;
                  ValidationResult.status := WARNING;
                  ValidationResult.message :=
                    [Lit "Force spike detected"];
                  ValidationResult.timestamp := current_time;
                  ValidationResult.details :=
                    <["recent_values" := DValues recent_values]>
                    (<["spike_detected" := DScalar (PBool true)]> ∅)
               |}),
             self)
        | Return false => (Return None, self)
        end
      else (Return None, self)
  end.

(** [_validate_motor_reading(reading)]; it does not touch the object. *)
Definition _validate_motor_reading
    (current_time : Q) (self : t) (reading : SensorReading.t)
    : outcome (option ValidationResult.t) * t :=
  match SensorReading.value reading with
  | VDict _ => (Raise TypeError, self)
  | VNum x =>
      let motor_value := Qabs x in
      if py_gt motor_value (MOTOR_THRESHOLD settings) then
        (Return (Some
           {| ValidationResult.sensor_type := MOTOR;
              ValidationResult.status := WARNING;
              ValidationResult.message :=
                [Lit "Motor speed "; Fmt (SensorReading.value reading);
                 Lit "RPM approaching operational limits"];
              ValidationResult.timestamp := current_time;
              ValidationResult.details :=
                <["threshold" :=
                    DScalar (PNum (MOTOR_THRESHOLD settings))]>
                (<["actual" := DValue (SensorReading.value reading)]>
                (<["absolute" := DScalar (PNum motor_value)]> ∅)) |}),
         self)
      else (Return None, self)
  end.

(** [camera_data.get(key, default)] *)
Definition get (camera_data : gmap string pyval) (key : string)
    (default : pyval) : pyval :=
  match camera_data !! key with
  | Some v => v
  | None => default
  end.

(** [_validate_camera_reading(reading)]; it does not touch the object. *)
Definition _validate_camera_reading
    (current_time : Q) (self : t) (reading : SensorReading.t)
    : outcome (option ValidationResult.t) * t :=
  match SensorReading.value reading with
  | VNum _ => (Raise AttributeError, self)
  | VDict camera_data =>
      (* Check for extremely low or high brightness *)
      let brightness := get camera_data "brightness" (PNum 128) in
      match as_number brightness with
      | Raise e => (Raise e, self)
      | Return b =>
          if py_lt b 30 then
            (Return (Some
               {| ValidationResult.sensor_type := CAMERA;
                  ValidationResult.status := WARNING;
                  ValidationResult.message :=
                    [Lit "Low lighting detected: brightness ";
                     FmtVal brightness];
                  ValidationResult.timestamp := current_time;
                  ValidationResult.details :=
                    <["brightness" := DScalar brightness]>
                    (<["exposure" :=
                         DScalar (get camera_data "exposure" (PNum 1))]>
                    (<["issue" :=
                         DScalar (PStr "insufficient_lighting")]> ∅)) |}),
             self)
          else if py_gt b 240 then
            (Return (Some
               {| ValidationResult.sensor_type := CAMERA;
                  ValidationResult.status := WARNING;
                  ValidationResult.message :=
                    [Lit "Overexposed image: brightness ";
                     FmtVal brightness];
                  ValidationResult.timestamp := current_time;
                  ValidationResult.details :=
                    <["brightness" := DScalar brightness]>
                    (<["exposure" :=
                         DScalar (get camera_data "exposure" (PNum 1))]>
                    (<["issue" := DScalar (PStr "overexposure")]> ∅)) |}),
             self)
          else (Return None, self)
      end
  end.

(** [validate_reading(reading)] *)
Definition validate_reading
    (current_time : Q) (self : t) (reading : SensorReading.t)
    : outcome (option ValidationResult.t) * t :=
  match SensorReading.sensor_type reading with
  | FORCE => _validate_force_reading current_time self reading
  | MOTOR => _validate_motor_reading current_time self reading
  | CAMERA => _validate_camera_reading current_time self reading
  end.

End WithSettings.

(** The dict returned by [get_validation_stats]. *)
Record validation_stats : Type := {
  total_validations_performed : Z;
  force_readings_analyzed : Z;
  motor_readings_analyzed : Z;
  camera_readings_analyzed : Z;
  validation_active : bool;
}.

(** [sum(len(history) for history in self.validation_history.values())],
    the values coming in the order of the keys in [__init__]. *)
Definition sum_of_lengths (self : t) : Z :=
  fold_left (fun total history => total + Z.of_nat (length history))
            (map (validation_history self) [FORCE; MOTOR; CAMERA]) 0.

(** [get_validation_stats()] *)
Definition get_validation_stats (self : t) : validation_stats :=
  let total_validations := sum_of_lengths self in
  {| total_validations_performed := total_validations;
     force_readings_analyzed :=
       Z.of_nat (length (validation_history self FORCE));
     motor_readings_analyzed :=
       Z.of_nat (length (validation_history self MOTOR));
     camera_readings_analyzed :=
       Z.of_nat (length (validation_history self CAMERA));
     validation_active := true |}.

End DataValidator.

(** ** app/services/data_manager.py *)

(** A connected client, known by the identity of its [WebSocket] object. *)
Abbreviation WebSocket := nat (only parsing).

(** The ['data'] of a broadcast message. *)
Inductive payload : Type :=
  | reading_dict (r : SensorReading.t)
  | validation_dict (v : ValidationResult.t)
  | status_dict (s : SystemStatus.t).

(** The dict [{'type': .., 'data': ..}] that is serialised and sent. *)
Record message : Type := {
  type : string;
  data : payload;
}.

(** The successful [send_text] calls, oldest first. *)
Definition trace : Type := list (WebSocket * message).

(** The dict returned by [stop_recording]. *)
Record session_data : Type := {
  sd_total_readings : Z;
  sd_session_duration : option Q;
  sd_validation_alerts : Z;
}.

(** The dict returned by [get_data_summary]: either the single key
    ["message"], or the six keys of the full summary. *)
Record summary_stats : Type := {
  total_readings : Z;
  sensor_breakdown : gmap string Z;
  validation_alerts : Z;
  session_duration_seconds : option Q;
  recording_active : bool;
  connected_clients : Z;
}.

Inductive data_summary : Type :=
  | summary_message (message : string)
  | summary_full (stats : summary_stats).

Module DataManager.

Record t : Type := Build {
  sensor_data : list SensorReading.t;
  validation_results : list ValidationResult.t;
  websocket_connections : list WebSocket;
  recording : bool;
  session_start_time : option Q;
  validator : DataValidator.t;
}.

(** [DataManager()] *)
Definition __init__ : t :=
  {| sensor_data := [];
     validation_results := [];
     websocket_connections := [];
     recording := false;
     session_start_time := None;
     validator := DataValidator.__init__ |}.

Definition set_sensor_data (l : list SensorReading.t) (self : t) : t :=
  Build l (validation_results self) (websocket_connections self)
        (recording self) (session_start_time self) (validator self).
Definition set_validation_results (l : list ValidationResult.t) (self : t)
    : t :=
  Build (sensor_data self) l (websocket_connections self)
        (recording self) (session_start_time self) (validator self).
Definition set_websocket_connections (l : list WebSocket) (self : t) : t :=
  Build (sensor_data self) (validation_results self) l
        (recording self) (session_start_time self) (validator self).
Definition set_recording (b : bool) (self : t) : t :=
  Build (sensor_data self) (validation_results self)
        (websocket_connections self) b (session_start_time self)
        (validator self).
Definition set_session_start_time (o : option Q) (self : t) : t :=
  Build (sensor_data self) (validation_results self)
        (websocket_connections self) (recording self) o (validator self).
Definition set_validator (v : DataValidator.t) (self : t) : t :=
  Build (sensor_data self) (validation_results self)
        (websocket_connections self) (recording self)
        (session_start_time self) v.

(** [add_websocket_connection(websocket)] *)
Definition add_websocket_connection (websocket : WebSocket) (self : t) : t :=
  set_websocket_connections (websocket_connections self ++ [websocket]) self.

(** [list.remove(x)]: drops the first element equal to [x]. *)
Fixpoint remove (x : WebSocket) (l : list WebSocket) : list WebSocket :=
  match l with
  | [] => []
  | y :: l' => if decide (y = x) then l' else y :: remove x l'
  end.

(** [remove_websocket_connection(websocket)] *)
Definition remove_websocket_connection (websocket : WebSocket) (self : t)
    : t :=
  if decide (websocket ∈ websocket_connections self) then
    set_websocket_connections
      (remove websocket (websocket_connections self)) self
  else self.

Section WithEnvironment.
Variable settings : Settings.
(** [send_text websocket message] is [true] when the call returns and
    [false] when it raises (the connection is closed). *)
Variable send_text : WebSocket -> message -> bool.

(** The loop shared by the two broadcast methods: each connection that
    accepts the message is appended to [active_connections]. *)
Fixpoint send_loop (message : message) (connections : list WebSocket)
    (active_connections : list WebSocket) : list WebSocket * trace :=
  match connections with
  | [] => (active_connections, [])
  | websocket :: rest =>
      if send_text websocket message then
        let '(active, sent) :=
          send_loop message rest (active_connections ++ [websocket]) in
        (active, (websocket, message) :: sent)
      else send_loop message rest active_connections
  end.

(** [_broadcast_message(message)] *)
Definition _broadcast_message (message : message) (self : t) : t * trace :=
  match websocket_connections self with
  | [] => (self, [])
  | _ =>
      let '(active_connections, sent) :=
        send_loop message (websocket_connections self) [] in
      (set_websocket_connections active_connections self, sent)
  end.

(** [_broadcast_sensor_data(reading)] *)
Definition _broadcast_sensor_data (reading : SensorReading.t) (self : t)
    : t * trace :=
  match websocket_connections self with
  | [] => (self, [])
  | _ =>
      let message :=
        {| type := "sensor_data"; data := reading_dict reading |} in
      (* Remove disconnected clients while broadcasting *)
      let '(active_connections, sent) :=
        send_loop message (websocket_connections self) [] in
      (set_websocket_connections active_connections self, sent)
  end.

(** [_broadcast_validation(validation)] *)
Definition _broadcast_validation (validation : ValidationResult.t)
    (self : t) : t * trace :=
  let message :=
    {| type := "validation"; data := validation_dict validation |} in
  _broadcast_message message self.

(** [session_start_time or 0] *)
Definition or_0 (o : option Q) : Q :=
  match o with
  | Some x => if Qeq_bool x 0 then 0%Q else x
  | None => 0%Q
  end.

(** [_broadcast_system_status()], at loop time [now]. *)
Definition _broadcast_system_status (now : Q) (self : t) : t * trace :=
  let status :=
    {| SystemStatus.force_sensor := true;
       SystemStatus.motor_controller := true;
       SystemStatus.camera := true;
       SystemStatus.recording := recording self;
       SystemStatus.uptime_seconds :=
         float_sub now (or_0 (session_start_time self));
       SystemStatus.data_points_collected :=
         Z.of_nat (length (sensor_data self)) |} in
  let message := {| type := "system_status"; data := status_dict status |} in
  _broadcast_message message self.

(** [add_sensor_data(reading)]; [current_time] is the clock read by the
    validator. *)
Definition add_sensor_data (current_time : Q) (reading : SensorReading.t)
    (self : t) : outcome unit * t * trace :=
  (* Store data if recording *)
  let self :=
    if recording self then
      let self := set_sensor_data (sensor_data self ++ [reading]) self in
      (* Maintain maximum data points *)
      if Z.of_nat (length (sensor_data self)) >? MAX_DATA_POINTS settings
      then
        set_sensor_data
          (slice_from (- MAX_DATA_POINTS settings) (sensor_data self)) self
      else self
    else self in
  (* Always validate incoming data *)
  let '(validation_result, validator') :=
    DataValidator.validate_reading settings current_time (validator self)
                                   reading in
  let self := set_validator validator' self in
  match validation_result with
  | Raise e => (Raise e, self, [])
  | Return validation_result =>
      let '(self, sent_validation) :=
        match validation_result with
        | Some validation_result =>
            let self :=
              set_validation_results
                (validation_results self ++ [validation_result]) self in
            _broadcast_validation validation_result self
        | None => (self, [])
        end in
      (* Broadcast sensor data to connected clients *)
      let '(self, sent_data) := _broadcast_sensor_data reading self in
      (Return tt, self, sent_validation ++ sent_data)
  end.

(** [start_recording()]; [now] and [now'] are the two reads of the loop
    clock, the second one inside [_broadcast_system_status]. *)
Definition start_recording (now now' : Q) (self : t) : t * trace :=
  let self := set_recording true self in
  let self := set_session_start_time (Some now) self in
  let self := set_sensor_data [] self in
  let self := set_validation_results [] self in
  _broadcast_system_status now' self.

(** [if self.session_start_time:], false for [None] and for [0.0]. *)
Definition truthy (o : option Q) : bool :=
  match o with
  | Some x => negb (Qeq_bool x 0)
  | None => false
  end.

(** [stop_recording()] *)
Definition stop_recording (now now' : Q) (self : t)
    : session_data * t * trace :=
  let self := set_recording false self in
  let session_duration :=
    if truthy (session_start_time self) then
      match session_start_time self with
      | Some start => Some (float_sub now start)
      | None => None
      end
    else None in
  let '(self, sent) := _broadcast_system_status now' self in
  ({| sd_total_readings := Z.of_nat (length (sensor_data self));
      sd_session_duration := session_duration;
      sd_validation_alerts := Z.of_nat (length (validation_results self)) |},
   self, sent).

End WithEnvironment.

(** The loop of [get_data_summary] that counts readings by sensor type:
    [sensor_counts[k] = sensor_counts.get(k, 0) + 1]. *)
Fixpoint count_by_type (readings : list SensorReading.t)
    (sensor_counts : gmap string Z) : gmap string Z :=
  match readings with
  | [] => sensor_counts
  | reading :: rest =>
      let sensor_type := SensorType_value (SensorReading.sensor_type reading) in
      count_by_type rest
        (<[sensor_type := default 0 (sensor_counts !! sensor_type) + 1]>
           sensor_counts)
  end.

(** [get_data_summary()] *)
Definition get_data_summary (self : t) : data_summary :=
  match sensor_data self with
  | [] => summary_message "No data recorded"
  | _ =>
      (* Count by sensor type *)
      let sensor_counts := count_by_type (sensor_data self) ∅ in
      (* Calculate session duration *)
      let session_duration :=
        if (1 <? length (sensor_data self))%nat then
          match index (sensor_data self) (-1), index (sensor_data self) 0 with
          | Some last, Some first =>
              Some (float_sub (SensorReading.timestamp last)
                              (SensorReading.timestamp first))
          | _, _ => None
          end
        else None in
      summary_full
        {| total_readings := Z.of_nat (length (sensor_data self));
           sensor_breakdown := sensor_counts;
           validation_alerts := Z.of_nat (length (validation_results self));
           session_duration_seconds := session_duration;
           recording_active := recording self;
           connected_clients :=
             Z.of_nat (length (websocket_connections self)) |}
  end.

End DataManager.

(** ** app/services/sensor_simulator.py

    Of the simulators only the [running] flags are kept: the routes set
    them, the threads behind them are outside this embedding. *)

Module SensorManager.

Record t : Type := Build {
  simulators : gmap SensorType bool;
  running : bool;
}.

(** [SensorManager(data_callback)] *)
Definition __init__ : t :=
  {| simulators :=
       <[FORCE := false]> (<[MOTOR := false]> (<[CAMERA := false]> ∅));
     running := false |}.

(** [start_all()] *)
Definition start_all (self : t) : t :=
  {| simulators := (fun _ => true) <$> simulators self; running := true |}.

(** [stop_all()] *)
Definition stop_all (self : t) : t :=
  {| simulators := (fun _ => false) <$> simulators self; running := false |}.

End SensorManager.

(** ** app/core/events.py and app/api/routes/sessions.py *)

(** The two module-level globals of [app.core.events]. *)
Record events : Type := {
  sensor_manager : option SensorManager.t;
  data_manager : option DataManager.t;
}.

(** [SessionResponse]; [started_at] is left out (wall-clock time). *)
Record SessionResponse : Type := {
  sr_session_id : string;
  sr_status : string;
  sr_data_points : Z;
}.

(** [SessionSummary] *)
Record SessionSummary : Type := {
  ss_session_id : string;
  ss_total_readings : Z;
  ss_session_duration : option Q;
  ss_validation_alerts : Z;
  ss_summary_stats : data_summary;
}.

Section Routes.
Variable settings : Settings.
Variable send_text : WebSocket -> message -> bool.

(** [POST /start]; [session_id] is the fresh uuid. *)
Definition start_session (session_id : string) (now now' : Q) (ev : events)
    : outcome SessionResponse * events * trace :=
  match data_manager ev, sensor_manager ev with
  | Some dm, Some sm =>
      if DataManager.recording dm then
        (Raise (HTTPException 400 "Session already in progress"), ev, [])
      else
        (* Start recording and sensors *)
        let '(dm, sent) := DataManager.start_recording send_text now now' dm in
        let sm := SensorManager.start_all sm in
        (Return {| sr_session_id := session_id;
                   sr_status := "recording";
                   sr_data_points := 0 |},
         {| sensor_manager := Some sm; data_manager := Some dm |}, sent)
  | _, _ => (Raise (HTTPException 503 "System not initialized"), ev, [])
  end.

(** [POST /stop]; [session_id] is the fresh uuid. *)
Definition stop_session (session_id : string) (now now' : Q) (ev : events)
    : outcome SessionSummary * events * trace :=
  match data_manager ev, sensor_manager ev with
  | Some dm, Some sm =>
      if negb (DataManager.recording dm) then
        (Raise (HTTPException 400 "No active session to stop"), ev, [])
      else
        (* Stop sensors and recording *)
        let sm := SensorManager.stop_all sm in
        let '(session_data, dm, sent) :=
          DataManager.stop_recording send_text now now' dm in
        (Return {| ss_session_id := session_id;
                   ss_total_readings := sd_total_readings session_data;
                   ss_session_duration := sd_session_duration session_data;
                   ss_validation_alerts := sd_validation_alerts session_data;
                   ss_summary_stats := DataManager.get_data_summary dm |},
         {| sensor_manager := Some sm; data_manager := Some dm |}, sent)
  | _, _ => (Raise (HTTPException 503 "System not initialized"), ev, [])
  end.

End Routes.

(** The other session routes, and the routes of
    [app/api/routes/sensors.py] that read the data manager.  The bounds that
    FastAPI checks on a query parameter before the handler runs ([ge], [le])
    are hypotheses of the properties, not part of the handlers. *)

Section MoreRoutes.
Variable send_text : WebSocket -> message -> bool.

(** [POST /reset]; the answer is its ["message"] (the wall-clock
    ["timestamp"] is left out). *)
Definition reset_session (now now' : Q) (ev : events)
    : outcome string * events * trace :=
  match data_manager ev, sensor_manager ev with
  | Some dm, Some sm =>
      (* Stop everything *)
      let sm := SensorManager.stop_all sm in
      let '(dm, sent) :=
        if DataManager.recording dm then
          let '(_, dm, sent) :=
            DataManager.stop_recording send_text now now' dm in
          (dm, sent)
        else (dm, []) in
      (* Clear data *)
      let dm := DataManager.set_sensor_data [] dm in
      let dm := DataManager.set_validation_results [] dm in
      (Return "Session reset successfully",
       {| sensor_manager := Some sm; data_manager := Some dm |}, sent)
  | _, _ => (Raise (HTTPException 503 "System not initialized"), ev, [])
  end.

(** [summary_stats.get("session_duration_seconds")] *)
Definition get_session_duration_seconds (summary_stats : data_summary)
    : option Q :=
  match summary_stats with
  | summary_message _ => None
  | summary_full stats => session_duration_seconds stats
  end.

(** [GET /summary]; [session_id] is the fresh uuid.  Only the data manager
    is looked at. *)
Definition get_session_summary (session_id : string) (ev : events)
    : outcome SessionSummary :=
  match data_manager ev with
  | Some dm =>
      let summary_stats := DataManager.get_data_summary dm in
      Return {| ss_session_id := session_id;
                ss_total_readings :=
                  Z.of_nat (length (DataManager.sensor_data dm));
                ss_session_duration :=
                  get_session_duration_seconds summary_stats;
                ss_validation_alerts :=
                  Z.of_nat (length (DataManager.validation_results dm));
                ss_summary_stats := summary_stats |}
  | None => Raise (HTTPException 503 "System not initialized")
  end.

(** [if start_time:] and [if end_time:], false for [None] and for [0.0]. *)
Definition given (o : option Q) : option Q :=
  match o with
  | Some x => if Qeq_bool x 0 then None else Some x
  | None => None
  end.

(** [GET /readings] *)
Definition get_sensor_readings (sensor_type : option SensorType) (limit : Z)
    (start_time end_time : option Q) (ev : events)
    : outcome (list SensorReading.t) :=
  match data_manager ev with
  | None => Raise (HTTPException 503 "System not initialized")
  | Some dm =>
      let readings := DataManager.sensor_data dm in
      (* Apply filters *)
      let readings :=
        match sensor_type with
        | Some sensor_type =>
            List.filter
              (fun r => bool_decide (SensorReading.sensor_type r = sensor_type))
              readings
        | None => readings
        end in
      let readings :=
        match given start_time with
        | Some start_time =>
            List.filter
              (fun r => Qle_bool start_time (SensorReading.timestamp r))
              readings
        | None => readings
        end in
      let readings :=
        match given end_time with
        | Some end_time =>
            List.filter
              (fun r => Qle_bool (SensorReading.timestamp r) end_time)
              readings
        | None => readings
        end in
      (* Apply limit *)
      Return (slice_from (- limit) readings)
  end.

(** The dict returned by [GET /readings/latest] (the wall-clock
    ["timestamp"] is left out). *)
Record latest_readings_response : Type := {
  latest_readings : gmap string (option SensorReading.t);
  lr_total_readings : Z;
}.

(** The loop of [get_latest_readings] over the members of [SensorType]. *)
Fixpoint latest_by_type (sensor_data : list SensorReading.t)
    (sensor_types : list SensorType)
    (latest_readings : gmap string (option SensorReading.t))
    : gmap string (option SensorReading.t) :=
  match sensor_types with
  | [] => latest_readings
  | sensor_type :: rest =>
      (* Find the most recent reading for this sensor type *)
      let sensor_readings :=
        List.filter
          (fun r => bool_decide (SensorReading.sensor_type r = sensor_type))
          sensor_data in
      let latest :=
        match sensor_readings with
        | [] => None
        | _ => index sensor_readings (-1)
        end in
      latest_by_type sensor_data rest
        (<[SensorType_value sensor_type := latest]> latest_readings)
  end.

(** [GET /readings/latest] *)
Definition get_latest_readings (ev : events)
    : outcome latest_readings_response :=
  match data_manager ev with
  | None => Raise (HTTPException 503 "System not initialized")
  | Some dm =>
      Return {| latest_readings :=
                  latest_by_type (DataManager.sensor_data dm)
                                 [FORCE; MOTOR; CAMERA] ∅;
                lr_total_readings :=
                  Z.of_nat (length (DataManager.sensor_data dm)) |}
  end.

(** [GET /validation] *)
Definition get_validation_results (limit : Z) (ev : events)
    : outcome (list ValidationResult.t) :=
  match data_manager ev with
  | None => Raise (HTTPException 503 "System not initialized")
  | Some dm => Return (slice_from (- limit) (DataManager.validation_results dm))
  end.

End MoreRoutes.

(** * Runs and scenarios

    Sequences of calls on one object, and the inputs of the scenarios that
    the specification and the tests give. *)

(** What a validation call answered, and the severity of its alert. *)
Definition alert_of (res : outcome (option ValidationResult.t) * DataValidator.t)
    : outcome (option ValidationResult.t) := fst res.

Definition severity (o : outcome (option ValidationResult.t))
    : outcome (option ValidationStatus) :=
  match o with
  | Return a => Return (ValidationResult.status <$> a)
  | Raise e => Raise e
  end.

(** The calls [validator.validate_reading(r)] made one after the other on
    one validator, as the tests do; each comes with its clock value. *)
Fixpoint validate_all (settings : Settings)
    (calls : list (Q * SensorReading.t)) (self : DataValidator.t)
    : list (outcome (option ValidationResult.t)) * DataValidator.t :=
  match calls with
  | [] => ([], self)
  | (current_time, reading) :: rest =>
      let '(result, self) :=
        DataValidator.validate_reading settings current_time self reading in
      let '(results, self) := validate_all settings rest self in
      (result :: results, self)
  end.

(** A FORCE reading carrying the number [x], taken at [timestamp]. *)
Definition force_reading (timestamp x : Q) : SensorReading.t :=
  {| SensorReading.timestamp := timestamp;
     SensorReading.sensor_type := FORCE;
     SensorReading.value := VNum x |}.

(** The scenario of the specification, which is also
    [test_force_validation_thresholds]: thresholds HIGH=80, MOTOR=55 and the
    readings 30, 65, 85 sent to a new validator. *)
Definition force_scenario : list (Q * SensorReading.t) :=
  [ (1234567890, force_reading 1234567890 30);
    (1234567891, force_reading 1234567891 65);
    (1234567892, force_reading 1234567892 85) ]%Q.

(** The floats that Python writes [0.07], [50.07] and
    [2.4000000000000004] ([0x1.1eb851eb851ecp-4], [0x1.908f5c28f5c29p+5] and
    [0x1.3333333333334p+1]). *)
Definition float_0_07 : Q := 1261007895663739 # 18014398509481984.
Definition float_50_07 : Q := 7046726041951273 # 140737488355328.
Definition float_2_4000000000000004 : Q :=
  1351079888211149 # 562949953421312.

(** The settings with [FORCE_THRESHOLD_HIGH] set to [high]. *)
Definition with_force_threshold (high : Q) : Settings :=
  {| MAX_DATA_POINTS := MAX_DATA_POINTS settings;
     FORCE_THRESHOLD_HIGH := high;
     MOTOR_THRESHOLD := MOTOR_THRESHOLD settings |}.

(** A validator that has seen the FORCE readings 0.07 and 1.0. *)
Definition validator_after_0_07_1 : DataValidator.t :=
  snd (validate_all settings
         [ (1, force_reading 1 float_0_07); (2, force_reading 2 1) ]%Q
         DataValidator.__init__).

(** A CAMERA reading carrying the metadata dict [camera_data]. *)
Definition camera_reading (timestamp : Q) (camera_data : gmap string pyval)
    : SensorReading.t :=
  {| SensorReading.timestamp := timestamp;
     SensorReading.sensor_type := CAMERA;
     SensorReading.value := VDict camera_data |}.

(** The metadata of [test_camera_validation], with the given brightness. *)
Definition camera_metadata (image_id brightness exposure : Q)
    : gmap string pyval :=
  <["image_id" := PNum image_id]>
  (<["resolution" := PStr "640x480"]>
  (<["brightness" := PNum brightness]>
  (<["exposure" := PNum exposure]> ∅))).

(** How many of the calls carry a reading of sensor type [k]. *)
Definition count_type (k : SensorType) (calls : list (Q * SensorReading.t))
    : nat :=
  length (List.filter
            (fun c => bool_decide (SensorReading.sensor_type (snd c) = k))
            calls).

(** A validator that has already seen the FORCE readings 5 and 10. *)
Definition validator_after_5_10 : DataValidator.t :=
  snd (validate_all settings
         [ (1234567890, force_reading 1234567890 5);
           (1234567891, force_reading 1234567891 10) ]%Q
         DataValidator.__init__).

(** The connections that accept [message], in their order, and the
    deliveries made to them. *)
Definition accepting (send_text : WebSocket -> message -> bool)
    (message : message) (connections : list WebSocket) : list WebSocket :=
  List.filter (fun websocket => send_text websocket message) connections.

Definition deliveries (send_text : WebSocket -> message -> bool)
    (message : message) (connections : list WebSocket) : trace :=
  map (fun websocket => (websocket, message))
      (accepting send_text message connections).

(** The calls [add_sensor_data(reading)] made one after the other on one
    data manager; a call that raises leaves what it had already changed. *)
Fixpoint ingest_all (settings : Settings)
    (send_text : WebSocket -> message -> bool)
    (calls : list (Q * SensorReading.t)) (self : DataManager.t)
    : DataManager.t :=
  match calls with
  | [] => self
  | (current_time, reading) :: rest =>
      let '(_, self, _) :=
        DataManager.add_sensor_data settings send_text current_time reading
                                    self in
      ingest_all settings send_text rest self
  end.

(** A data manager that is recording, with nothing stored yet and nobody
    connected. *)
Definition recording_manager : DataManager.t :=
  DataManager.set_recording true DataManager.__init__.

(** An environment in which every [send_text] succeeds. *)
Definition all_delivered : WebSocket -> message -> bool := fun _ _ => true.

(** The globals once [startup_handler] has run. *)
Definition started_up : events :=
  {| sensor_manager := Some SensorManager.__init__;
     data_manager := Some DataManager.__init__ |}.

(** What [add_sensor_data] makes of the stored readings while recording:
    the reading is appended, and a list longer than [MAX_DATA_POINTS] is
    replaced by its slice [[-MAX_DATA_POINTS:]]. *)
Definition accept (settings : Settings) (reading : SensorReading.t)
    (sensor_data : list SensorReading.t) : list SensorReading.t :=
  let sensor_data := sensor_data ++ [reading] in
  if Z.of_nat (length sensor_data) >? MAX_DATA_POINTS settings
  then slice_from (- MAX_DATA_POINTS settings) sensor_data
  else sensor_data.

(** The two messages that [add_sensor_data] broadcasts. *)
Definition validation_message (validation : ValidationResult.t) : message :=
  {| type := "validation"; data := validation_dict validation |}.

Definition sensor_data_message (reading : SensorReading.t) : message :=
  {| type := "sensor_data"; data := reading_dict reading |}.

(** The invariant of the data model, "value type matches sensor kind": a
    number for FORCE and MOTOR, a dict for CAMERA whose brightness, when it
    is there, is a number.  The simulators only make such readings. *)
Definition is_number (v : value) : bool :=
  match v with
  | VNum _ => true
  | VDict _ => false
  end.

Definition well_typed (reading : SensorReading.t) : bool :=
  match SensorReading.sensor_type reading, SensorReading.value reading with
  | FORCE, VNum _ | MOTOR, VNum _ => true
  | CAMERA, VDict camera_data =>
      match as_number (DataValidator.get camera_data "brightness" (PNum 128))
      with
      | Return _ => true
      | Raise _ => false
      end
  | _, _ => false
  end.

(** Every value kept in the FORCE history is a number: so it is on a new
    validator, and so it stays while the readings are well typed. *)
Definition numeric_history (self : DataValidator.t) : bool :=
  forallb (fun entry => is_number (HistoryEntry.value entry))
          (DataValidator.validation_history self FORCE).

(** A recording data manager with the clients 1, 2 and 3 connected, and an
    environment in which the connection of client 2 is closed. *)
Definition three_clients : DataManager.t :=
  DataManager.add_websocket_connection 3%nat
    (DataManager.add_websocket_connection 2%nat
       (DataManager.add_websocket_connection 1%nat recording_manager)).

Definition second_closed : WebSocket -> message -> bool :=
  fun websocket _ => negb (websocket =? 2)%nat.

(** A reading known by its timestamp only (a small FORCE value). *)
Definition reading_at (timestamp : Q) : Q * SensorReading.t :=
  (timestamp, force_reading timestamp 15).

(** The default thresholds with another capacity of the readings buffer. *)
Definition with_capacity (capacity : Z) : Settings :=
  {| MAX_DATA_POINTS := capacity;
     FORCE_THRESHOLD_HIGH := FORCE_THRESHOLD_HIGH settings;
     MOTOR_THRESHOLD := MOTOR_THRESHOLD settings |}.

(** How many of the stored readings are of sensor type [k]. *)
Definition count_readings (k : SensorType) (readings : list SensorReading.t)
    : nat :=
  length (List.filter
            (fun reading => bool_decide (SensorReading.sensor_type reading = k))
            readings).

(** A data manager holding one FORCE, one MOTOR and one more FORCE reading,
    taken at 10, 12 and 17. *)
Definition three_readings : DataManager.t :=
  DataManager.set_sensor_data
    [ force_reading 10 15;
      {| SensorReading.timestamp := 12;
         SensorReading.sensor_type := MOTOR;
         SensorReading.value := VNum 25 |};
      force_reading 17 16 ]%Q
    DataManager.__init__.

(** A MOTOR reading carrying the number [x], taken at [timestamp]. *)
Definition motor_reading (timestamp x : Q) : SensorReading.t :=
  {| SensorReading.timestamp := timestamp;
     SensorReading.sensor_type := MOTOR;
     SensorReading.value := VNum x |}.

(** A validation call that returned, with or without an alert. *)
Definition returned {A : Type} (o : outcome A) : bool :=
  match o with
  | Return _ => true
  | Raise _ => false
  end.

(** The alerts among the answers of a run of validation calls. *)
Fixpoint alerts_of (results : list (outcome (option ValidationResult.t)))
    : list ValidationResult.t :=
  match results with
  | [] => []
  | Return (Some alert) :: rest => alert :: alerts_of rest
  | _ :: rest => alerts_of rest
  end.

(** How many times an observer is in the list of connections. *)
Definition registrations (websocket : WebSocket)
    (connections : list WebSocket) : nat :=
  count_occ Nat.eq_dec connections websocket.

(** The system_status message that [_broadcast_system_status] builds. *)
Definition system_status_message (recording : bool) (uptime_seconds : Q)
    (data_points_collected : Z) : message :=
  {| type := "system_status";
     data := status_dict
               {| SystemStatus.force_sensor := true;
                  SystemStatus.motor_controller := true;
                  SystemStatus.camera := true;
                  SystemStatus.recording := recording;
                  SystemStatus.uptime_seconds := uptime_seconds;
                  SystemStatus.data_points_collected := data_points_collected
               |} |}.

(** The globals while a session started at loop time 100 is recording, with
    the three readings of [three_readings] stored. *)
Definition recording_session : events :=
  {| sensor_manager := Some (SensorManager.start_all SensorManager.__init__);
     data_manager :=
       Some (DataManager.set_session_start_time (Some 100%Q)
               (DataManager.set_recording true three_readings)) |}.

(** A FORCE reading that carries a dict instead of a number; the base
    model [SensorReading] accepts it. *)
Definition mistyped_force_reading : SensorReading.t :=
  {| SensorReading.timestamp := 1234567890;
     SensorReading.sensor_type := FORCE;
     SensorReading.value := VDict ∅ |}.

(** A filter that is applied only when its parameter is given, as the
    three filters of [get_sensor_readings] are. *)
Definition filter_if_given {A B : Type} (parameter : option B)
    (keeps : B -> A -> bool) (l : list A) : list A :=
  match parameter with
  | Some b => List.filter (keeps b) l
  | None => l
  end.

(** The globals with the three readings of [three_readings] stored. *)
Definition with_three_readings : events :=
  {| sensor_manager := Some SensorManager.__init__;
     data_manager := Some three_readings |}.

(** The data manager after the FORCE readings 70, 85, 30 and 90 have come
    in during a recording: three alerts are recorded, a WARNING and two
    ERRORs. *)
Definition three_alerts : DataManager.t :=
  ingest_all settings all_delivered
    [ (1, force_reading 1 70); (2, force_reading 2 85);
      (3, force_reading 3 30); (4, force_reading 4 90) ]%Q
    recording_manager.

Definition with_three_alerts : events :=
  {| sensor_manager := Some (SensorManager.start_all SensorManager.__init__);
     data_manager := Some three_alerts |}.

(** * Properties *)

(** ** The order tests and the slices *)

Lemma py_lt_spec (x y : Q) : py_lt x y = true <-> (x < y)%Q.
Proof.
  unfold py_lt. rewrite Qlt_alt.
  destruct (x ?= y)%Q; split; congruence.
Qed.

Lemma py_gt_spec (x y : Q) : py_gt x y = true <-> (y < x)%Q.
Proof. apply py_lt_spec. Qed.

Lemma py_gt_false (x y : Q) : py_gt x y = false <-> (x <= y)%Q.
Proof.
  rewrite <- not_true_iff_false, py_gt_spec. split; intros H.
  - apply Qnot_lt_le, H.
  - apply Qle_not_lt, H.
Qed.

Lemma py_lt_false (x y : Q) : py_lt x y = false <-> (y <= x)%Q.
Proof. apply py_gt_false. Qed.

(** [l[-n:]] for a positive [n] keeps the last [n] elements. *)
Lemma slice_from_last {A : Type} (n : nat) (l : list A) :
  (0 < n)%nat ->
  slice_from (- Z.of_nat n) l = drop (length l - n) l.
Proof.
  intros Hn. unfold slice_from.
  destruct (Z.ltb_spec (- Z.of_nat n) 0) as [_ | ?]; [| lia].
  f_equal. lia.
Qed.

(** [l[-0:]] is [l[0:]], the whole list. *)
Lemma slice_from_0 {A : Type} (l : list A) : slice_from (- 0) l = l.
Proof. unfold slice_from. simpl. rewrite Z.min_l by lia. reflexivity. Qed.

Lemma slice_from_last_length {A : Type} (n : nat) (l : list A) :
  (0 < n)%nat ->
  length (slice_from (- Z.of_nat n) l) = Nat.min n (length l).
Proof. intros Hn. rewrite slice_from_last, length_drop by done. lia. Qed.

(** ** Float arithmetic *)

(** Zero times anything is zero, also after rounding. *)
Lemma float_mul_0_l (x y : Q) : (x == 0)%Q -> float_mul x y = 0%Q.
Proof.
  intros Hx. unfold float_mul, round64.
  assert (Qnum (x * y) = 0) as ->; [| reflexivity].
  destruct x as [n d]. unfold Qeq in Hx. simpl in *. nia.
Qed.

(** A reading above the product [FORCE_THRESHOLD_HIGH * 0.8] and not above
    the threshold has a non-zero threshold: the ratio of the
    approaching-limit alert is defined. *)
Lemma approaching_limit_divides (H x : Q) :
  (float_mul H float_0_8 < x)%Q ->
  (x <= H)%Q ->
  exists ratio, float_div x H = Return ratio.
Proof.
  intros Hlo Hhi. unfold float_div.
  destruct (Qeq_bool H 0) eqn:Hzero; [| eauto].
  apply Qeq_bool_iff in Hzero.
  rewrite (float_mul_0_l _ _ Hzero) in Hlo. lra.
Qed.

(** [round64] against the binary64 arithmetic of the kernel, on the numbers
    of the scenarios below: [0.8], [3.0 * 0.8], [80.0 * 0.8],
    [50.07 - 0.07], [65.0 / 80.0] and [0.8125 * 100]. *)
Lemma round64_binary64 :
  binary64_value 0x1.999999999999ap-1 = Some float_0_8
  /\ binary64_value (3 * 0x1.999999999999ap-1) = Some (float_mul 3 float_0_8)
  /\ binary64_value 0x1.3333333333334p+1 = Some float_2_4000000000000004
  /\ binary64_value (80 * 0x1.999999999999ap-1) = Some (float_mul 80 float_0_8)
  /\ binary64_value 0x1.1eb851eb851ecp-4 = Some float_0_07
  /\ binary64_value 0x1.908f5c28f5c29p+5 = Some float_50_07
  /\ binary64_value (0x1.908f5c28f5c29p+5 - 0x1.1eb851eb851ecp-4)
     = Some (float_sub float_50_07 float_0_07)
  /\ binary64_value (65 / 80) = Some (round64 (65 / 80))
  /\ binary64_value (65 / 80 * 100) = Some (float_mul (round64 (65 / 80)) 100).
Proof. vm_compute. repeat split. Qed.

(** ** Force thresholds *)

Section ForceRules.
Variable s : Settings.
Variables (current_time : Q) (self : DataValidator.t).
Variables (reading : SensorReading.t) (x : Q).
Hypothesis Hkind : SensorReading.sensor_type reading = FORCE.
Hypothesis Hvalue : SensorReading.value reading = VNum x.

Lemma force_critical :
  (FORCE_THRESHOLD_HIGH s < x)%Q ->
  severity (alert_of (DataValidator.validate_reading s current_time self reading))
  = Return (Some ERROR).
Proof.
  intros Hx. apply py_gt_spec in Hx.
  unfold DataValidator.validate_reading, DataValidator._validate_force_reading.
  rewrite Hkind, Hvalue, Hx. reflexivity.
Qed.

Lemma force_warning :
  (float_mul (FORCE_THRESHOLD_HIGH s) float_0_8 < x)%Q ->
  (x <= FORCE_THRESHOLD_HIGH s)%Q ->
  severity (alert_of (DataValidator.validate_reading s current_time self reading))
  = Return (Some WARNING).
Proof.
  intros Hlo Hhi.
  destruct (approaching_limit_divides _ _ Hlo Hhi) as [ratio Hratio].
  apply py_gt_false in Hhi. apply py_gt_spec in Hlo.
  unfold DataValidator.validate_reading, DataValidator._validate_force_reading.
  rewrite Hkind, Hvalue, Hhi, Hlo, Hratio. reflexivity.
Qed.
End ForceRules.

Lemma force_scenario_alerts :
  map severity (fst (validate_all settings force_scenario DataValidator.__init__))
  = [Return None; Return (Some WARNING); Return (Some ERROR)].
Proof. vm_compute. reflexivity. Qed.

(** C3: a FORCE reading above [FORCE_THRESHOLD_HIGH] is answered with an
    ERROR alert; one above the float product [FORCE_THRESHOLD_HIGH * 0.8]
    (the product rounded to the nearest binary64 number, which the source
    compares with) and not above the threshold is answered with a WARNING
    alert; with the threshold at 80 the readings 30, 65, 85 are answered
    with no alert, WARNING, ERROR. *)
Theorem force_threshold_severity
    (s : Settings) (current_time : Q) (self : DataValidator.t)
    (reading : SensorReading.t) (x : Q) :
  SensorReading.sensor_type reading = FORCE ->
  SensorReading.value reading = VNum x ->
  ((FORCE_THRESHOLD_HIGH s < x)%Q ->
   severity (alert_of (DataValidator.validate_reading s current_time self reading))
   = Return (Some ERROR)) /\
  ((float_mul (FORCE_THRESHOLD_HIGH s) float_0_8 < x)%Q
   /\ (x <= FORCE_THRESHOLD_HIGH s)%Q ->
   severity (alert_of (DataValidator.validate_reading s current_time self reading))
   = Return (Some WARNING)) /\
  (FORCE_THRESHOLD_HIGH settings == 80)%Q /\
  map severity (fst (validate_all settings force_scenario DataValidator.__init__))
  = [Return None; Return (Some WARNING); Return (Some ERROR)].
Proof.
  intros Hkind Hvalue. split; [| split; [| split]].
  - apply force_critical; assumption.
  - intros [Hlo Hhi]. apply force_warning with (x := x); assumption.
  - reflexivity.
  - apply force_scenario_alerts.
Qed.

Lemma force_threshold_severity_witness :
  severity (alert_of (DataValidator.validate_reading
                        settings 1234567892 DataValidator.__init__
                        (force_reading 1234567892 85)))
  = Return (Some ERROR)
  /\ severity (alert_of (DataValidator.validate_reading
                           settings 1234567891 DataValidator.__init__
                           (force_reading 1234567891 65)))
     = Return (Some WARNING).
Proof.
  split.
  - apply (proj1 (force_threshold_severity
                    settings 1234567892 DataValidator.__init__
                    (force_reading 1234567892 85) 85 eq_refl eq_refl)).
    reflexivity.
  - apply (proj1 (proj2 (force_threshold_severity
                    settings 1234567891 DataValidator.__init__
                    (force_reading 1234567891 65) 65 eq_refl eq_refl))).
    split; [reflexivity | discriminate].
Defined.

(** C3, the claim as written fails at a rounding boundary: with the
    threshold at 3.0 the reading 2.4000000000000004 is above 0.8 times the
    threshold (2.4) and not above the threshold, yet it gets no alert: the
    source compares it with the float [3.0 * 0.8], which is
    2.4000000000000004 itself. *)
Lemma force_above_exact_product_no_warning :
  ((8#10) * FORCE_THRESHOLD_HIGH (with_force_threshold 3)
   < float_2_4000000000000004)%Q
  /\ (float_2_4000000000000004
      <= FORCE_THRESHOLD_HIGH (with_force_threshold 3))%Q
  /\ float_mul (FORCE_THRESHOLD_HIGH (with_force_threshold 3)) float_0_8
     = float_2_4000000000000004
  /\ severity (alert_of (DataValidator.validate_reading
                           (with_force_threshold 3) 1234567890
                           DataValidator.__init__
                           (force_reading 1234567890
                              float_2_4000000000000004)))
     = Return None.
Proof.
  split; [reflexivity |]. split; [discriminate |].
  split; vm_compute; reflexivity.
Qed.

(** ** Camera brightness *)

Section CameraRules.
Variable s : Settings.
Variables (current_time : Q) (self : DataValidator.t).
Variables (reading : SensorReading.t) (camera_data : gmap string pyval).
Hypothesis Hkind : SensorReading.sensor_type reading = CAMERA.
Hypothesis Hvalue : SensorReading.value reading = VDict camera_data.

Let brightness : pyval := DataValidator.get camera_data "brightness" (PNum 128).

Lemma camera_low (b : Q) :
  as_number brightness = Return b ->
  (b < 30)%Q ->
  exists a,
    DataValidator.validate_reading s current_time self reading
    = (Return (Some a), self)
    /\ ValidationResult.status a = WARNING
    /\ ValidationResult.message a
       = [Lit "Low lighting detected: brightness "; FmtVal brightness]
    /\ ValidationResult.details a !! "issue"
       = Some (DScalar (PStr "insufficient_lighting")).
Proof.
  intros Hb Hlow. apply py_lt_spec in Hlow.
  unfold DataValidator.validate_reading, DataValidator._validate_camera_reading.
  rewrite Hkind, Hvalue. fold brightness. rewrite Hb, Hlow.
  eexists. split; [reflexivity |]. repeat split.
Qed.

Lemma camera_high (b : Q) :
  as_number brightness = Return b ->
  (30 <= b)%Q ->
  (240 < b)%Q ->
  exists a,
    DataValidator.validate_reading s current_time self reading
    = (Return (Some a), self)
    /\ ValidationResult.status a = WARNING
    /\ ValidationResult.message a
       = [Lit "Overexposed image: brightness "; FmtVal brightness]
    /\ ValidationResult.details a !! "issue"
       = Some (DScalar (PStr "overexposure")).
Proof.
  intros Hb Hlow Hhigh. apply py_lt_false in Hlow. apply py_gt_spec in Hhigh.
  unfold DataValidator.validate_reading, DataValidator._validate_camera_reading.
  rewrite Hkind, Hvalue. fold brightness. rewrite Hb, Hlow, Hhigh.
  eexists. split; [reflexivity |]. repeat split.
Qed.

Lemma camera_normal (b : Q) :
  as_number brightness = Return b ->
  (30 <= b)%Q ->
  (b <= 240)%Q ->
  DataValidator.validate_reading s current_time self reading
  = (Return None, self).
Proof.
  intros Hb Hlow Hhigh. apply py_lt_false in Hlow. apply py_gt_false in Hhigh.
  unfold DataValidator.validate_reading, DataValidator._validate_camera_reading.
  rewrite Hkind, Hvalue. fold brightness. rewrite Hb, Hlow, Hhigh.
  reflexivity.
Qed.

Lemma camera_default :
  camera_data !! "brightness" = None ->
  brightness = PNum 128
  /\ DataValidator.validate_reading s current_time self reading
     = (Return None, self).
Proof.
  intros Hmissing.
  assert (brightness = PNum 128) as Hdef
    by (unfold brightness, DataValidator.get; rewrite Hmissing; reflexivity).
  split; [exact Hdef |].
  apply camera_normal with (b := 128%Q).
  - rewrite Hdef. reflexivity.
  - discriminate.
  - discriminate.
Qed.
End CameraRules.

(** C7: for a CAMERA reading whose brightness (128 when the key is missing)
    is the number [b]: below 30 the answer is a WARNING alert for
    insufficient lighting; otherwise above 240 it is a WARNING alert for
    overexposure; otherwise there is no alert; and with the key missing
    [b] is 128 and there is no alert.  The validator is left as it was. *)
Theorem camera_brightness_alerts
    (s : Settings) (current_time : Q) (self : DataValidator.t)
    (reading : SensorReading.t) (camera_data : gmap string pyval) (b : Q) :
  SensorReading.sensor_type reading = CAMERA ->
  SensorReading.value reading = VDict camera_data ->
  as_number (DataValidator.get camera_data "brightness" (PNum 128)) = Return b ->
  ((b < 30)%Q ->
   exists a,
     DataValidator.validate_reading s current_time self reading
     = (Return (Some a), self)
     /\ ValidationResult.sensor_type a = CAMERA
     /\ ValidationResult.status a = WARNING
     /\ ValidationResult.message a
        = [Lit "Low lighting detected: brightness ";
           FmtVal (DataValidator.get camera_data "brightness" (PNum 128))]
     /\ ValidationResult.details a !! "issue"
        = Some (DScalar (PStr "insufficient_lighting"))) /\
  ((30 <= b)%Q /\ (240 < b)%Q ->
   exists a,
     DataValidator.validate_reading s current_time self reading
     = (Return (Some a), self)
     /\ ValidationResult.sensor_type a = CAMERA
     /\ ValidationResult.status a = WARNING
     /\ ValidationResult.message a
        = [Lit "Overexposed image: brightness ";
           FmtVal (DataValidator.get camera_data "brightness" (PNum 128))]
     /\ ValidationResult.details a !! "issue"
        = Some (DScalar (PStr "overexposure"))) /\
  ((30 <= b)%Q /\ (b <= 240)%Q ->
   DataValidator.validate_reading s current_time self reading
   = (Return None, self)) /\
  (camera_data !! "brightness" = None ->
   b = 128%Q
   /\ DataValidator.validate_reading s current_time self reading
      = (Return None, self)).
Proof.
  intros Hkind Hvalue Hb. split; [| split; [| split]].
  - intros Hlow.
    destruct (camera_low s current_time self reading camera_data
                Hkind Hvalue b Hb Hlow) as (a & Ha & ?).
    exists a. split; [exact Ha |]. split; [| assumption].
    unfold DataValidator.validate_reading, DataValidator._validate_camera_reading
      in Ha.
    rewrite Hkind, Hvalue, Hb in Ha. apply py_lt_spec in Hlow.
    rewrite Hlow in Ha. injection Ha as <-. reflexivity.
  - intros [Hlow Hhigh].
    destruct (camera_high s current_time self reading camera_data
                Hkind Hvalue b Hb Hlow Hhigh) as (a & Ha & ?).
    exists a. split; [exact Ha |]. split; [| assumption].
    unfold DataValidator.validate_reading, DataValidator._validate_camera_reading
      in Ha.
    rewrite Hkind, Hvalue, Hb in Ha.
    apply py_lt_false in Hlow. apply py_gt_spec in Hhigh.
    rewrite Hlow, Hhigh in Ha. injection Ha as <-. reflexivity.
  - intros [Hlow Hhigh].
    apply camera_normal with (camera_data := camera_data) (b := b); assumption.
  - intros Hmissing.
    destruct (camera_default s current_time self reading camera_data
                Hkind Hvalue Hmissing) as [Hdef Hres].
    split; [| exact Hres].
    rewrite Hdef in Hb. simpl in Hb. congruence.
Qed.

Lemma camera_brightness_alerts_witness :
  exists a,
    DataValidator.validate_reading
      settings 1234567891 DataValidator.__init__
      (camera_reading 1234567891 (camera_metadata 1002 20 (15#10)))
    = (Return (Some a), DataValidator.__init__)
    /\ ValidationResult.sensor_type a = CAMERA
    /\ ValidationResult.status a = WARNING
    /\ ValidationResult.message a
       = [Lit "Low lighting detected: brightness ";
          FmtVal (DataValidator.get (camera_metadata 1002 20 (15#10))
                                    "brightness" (PNum 128))]
    /\ ValidationResult.details a !! "issue"
       = Some (DScalar (PStr "insufficient_lighting")).
Proof.
  apply (proj1 (camera_brightness_alerts
                  settings 1234567891 DataValidator.__init__
                  (camera_reading 1234567891 (camera_metadata 1002 20 (15#10)))
                  (camera_metadata 1002 20 (15#10)) 20
                  eq_refl eq_refl eq_refl)).
  reflexivity.
Defined.

(** The three readings of [test_camera_validation] and of the scenario of
    the specification: brightness 128, 20 and 250. *)
Lemma camera_scenario_alerts :
  map severity
    (fst (validate_all settings
            [ (1234567890,
               camera_reading 1234567890 (camera_metadata 1001 128 1));
              (1234567891,
               camera_reading 1234567891 (camera_metadata 1002 20 (15#10)));
              (1234567892,
               camera_reading 1234567892 (camera_metadata 1003 250 (5#10))) ]%Q
            DataValidator.__init__))
  = [Return None; Return (Some WARNING); Return (Some WARNING)].
Proof. vm_compute. reflexivity. Qed.

(** ** The histories kept by the validator *)

#[local] Arguments Nat.min : simpl never.

(** The FORCE history after [_validate_force_reading]: the new entry is
    appended and the list is cut to its last 50 entries.  The other two
    histories are not touched, whatever the call answers. *)
Lemma force_history_after
    (s : Settings) (current_time : Q) (self : DataValidator.t)
    (reading : SensorReading.t) :
  DataValidator.validation_history
    (snd (DataValidator._validate_force_reading s current_time self reading))
  = <[FORCE :=
        let history :=
          DataValidator.validation_history self FORCE
            ++ [HistoryEntry.Build current_time (SensorReading.value reading)] in
        if (50 <? length history)%nat then slice_from (-50) history
        else history]>
      (DataValidator.validation_history self).
Proof.
  unfold DataValidator._validate_force_reading.
  destruct (SensorReading.value reading) as [x | d]; [| reflexivity].
  destruct (py_gt x (FORCE_THRESHOLD_HIGH s)); [reflexivity |].
  destruct (py_gt x (float_mul (FORCE_THRESHOLD_HIGH s) float_0_8));
    [destruct (float_div x (FORCE_THRESHOLD_HIGH s)); reflexivity |].
  match goal with |- context [(3 <=? ?n)%nat] => destruct (3 <=? n)%nat end;
    [| reflexivity].
  match goal with |- context [DataValidator._detect_spike ?l] =>
    destruct (DataValidator._detect_spike l) as [[] | e] end; reflexivity.
Qed.

Lemma motor_validator_unchanged
    (s : Settings) (current_time : Q) (self : DataValidator.t)
    (reading : SensorReading.t) :
  snd (DataValidator._validate_motor_reading s current_time self reading) = self.
Proof.
  unfold DataValidator._validate_motor_reading.
  destruct (SensorReading.value reading) as [x | d]; [| reflexivity].
  destruct (py_gt (Qabs x) (MOTOR_THRESHOLD s)); reflexivity.
Qed.

Lemma camera_validator_unchanged
    (current_time : Q) (self : DataValidator.t)
    (reading : SensorReading.t) :
  snd (DataValidator._validate_camera_reading current_time self reading) = self.
Proof.
  unfold DataValidator._validate_camera_reading.
  destruct (SensorReading.value reading) as [x | d]; [reflexivity |].
  destruct (as_number _) as [b | e]; [| reflexivity].
  destruct (py_lt b 30); [reflexivity |].
  destruct (py_gt b 240); reflexivity.
Qed.

Lemma capped_length {A : Type} (history : list A) :
  length (if (50 <? length history)%nat then slice_from (-50) history
          else history)
  = Nat.min 50 (length history).
Proof.
  destruct (Nat.ltb_spec 50 (length history)) as [Hlt | Hge].
  - change (-50) with (- Z.of_nat 50).
    rewrite slice_from_last_length by lia. reflexivity.
  - lia.
Qed.

(** One call: the MOTOR and CAMERA histories are not touched; the FORCE
    history grows by one entry for a FORCE reading, up to 50 entries. *)
Lemma validate_reading_histories
    (s : Settings) (current_time : Q) (self : DataValidator.t)
    (reading : SensorReading.t) :
  let self' :=
    snd (DataValidator.validate_reading s current_time self reading) in
  DataValidator.validation_history self' MOTOR
  = DataValidator.validation_history self MOTOR
  /\ DataValidator.validation_history self' CAMERA
     = DataValidator.validation_history self CAMERA
  /\ length (DataValidator.validation_history self' FORCE)
     = match SensorReading.sensor_type reading with
       | FORCE =>
           Nat.min 50 (length (DataValidator.validation_history self FORCE) + 1)
       | _ => length (DataValidator.validation_history self FORCE)
       end.
Proof.
  cbv zeta. unfold DataValidator.validate_reading.
  destruct (SensorReading.sensor_type reading).
  - rewrite force_history_after.
    rewrite fn_lookup_insert, !fn_lookup_insert_ne by discriminate.
    rewrite capped_length, length_app. repeat split; reflexivity.
  - rewrite motor_validator_unchanged. repeat split; reflexivity.
  - rewrite camera_validator_unchanged. repeat split; reflexivity.
Qed.

Lemma count_type_cons (k : SensorType) (current_time : Q)
    (reading : SensorReading.t) (calls : list (Q * SensorReading.t)) :
  count_type k ((current_time, reading) :: calls)
  = ((if decide (SensorReading.sensor_type reading = k) then 1 else 0)
     + count_type k calls)%nat.
Proof.
  unfold count_type. simpl.
  destruct (decide (SensorReading.sensor_type reading = k)) as [Heq | Hne].
  - rewrite bool_decide_eq_true_2 by exact Heq. reflexivity.
  - rewrite bool_decide_eq_false_2 by exact Hne. reflexivity.
Qed.

Lemma validate_all_histories
    (s : Settings) (calls : list (Q * SensorReading.t))
    (self : DataValidator.t) :
  let self' := snd (validate_all s calls self) in
  DataValidator.validation_history self' MOTOR
  = DataValidator.validation_history self MOTOR
  /\ DataValidator.validation_history self' CAMERA
     = DataValidator.validation_history self CAMERA
  /\ length (DataValidator.validation_history self' FORCE)
     = if decide (count_type FORCE calls = 0%nat)
       then length (DataValidator.validation_history self FORCE)
       else Nat.min 50 (length (DataValidator.validation_history self FORCE)
                        + count_type FORCE calls).
Proof.
  revert self. induction calls as [| [current_time reading] calls IH];
    intros self; simpl.
  - unfold count_type. simpl. auto.
  - pose proof (validate_reading_histories s current_time self reading)
      as (Hm & Hc & Hf).
    destruct (DataValidator.validate_reading s current_time self reading)
      as [result self1] eqn:Hcall.
    specialize (IH self1).
    destruct (validate_all s calls self1) as [results self2] eqn:Hrest.
    simpl in *. destruct IH as (IHm & IHc & IHf).
    split; [congruence |]. split; [congruence |].
    rewrite IHf, Hf, count_type_cons.
    destruct (SensorReading.sensor_type reading);
      [rewrite (decide_True (P := FORCE = FORCE)) by reflexivity
      | rewrite (decide_False (P := MOTOR = FORCE)) by discriminate
      | rewrite (decide_False (P := CAMERA = FORCE)) by discriminate];
      repeat case_decide; lia.
Qed.

(** C10: after any sequence of [validate_reading] calls on a new validator,
    whatever the readings, the MOTOR and CAMERA histories are empty and the
    FORCE history holds one entry per FORCE reading, at most 50. *)
Theorem histories_after_any_calls
    (s : Settings) (calls : list (Q * SensorReading.t)) :
  DataValidator.validation_history
    (snd (validate_all s calls DataValidator.__init__)) MOTOR = []
  /\ DataValidator.validation_history
       (snd (validate_all s calls DataValidator.__init__)) CAMERA = []
  /\ length (DataValidator.validation_history
               (snd (validate_all s calls DataValidator.__init__)) FORCE)
     = Nat.min 50 (count_type FORCE calls)
  /\ (length (DataValidator.validation_history
                (snd (validate_all s calls DataValidator.__init__)) FORCE)
      <= 50)%nat.
Proof.
  pose proof (validate_all_histories s calls DataValidator.__init__)
    as (Hm & Hc & Hf).
  simpl in *. split; [exact Hm |]. split; [exact Hc |].
  assert (length (DataValidator.validation_history
                    (snd (validate_all s calls DataValidator.__init__)) FORCE)
          = Nat.min 50 (count_type FORCE calls)) as Hlen.
  { rewrite Hf. change (DataValidator.validation_history
                          DataValidator.__init__ FORCE) with (@nil HistoryEntry.t).
    simpl. case_decide; lia. }
  split; [exact Hlen | lia].
Qed.

(** ** Force spikes *)

Lemma detect_spike_numbers (values : list value) (latest oldest : Q) :
  (3 <= length values)%nat ->
  index values (-1) = Some (VNum latest) ->
  index values 0 = Some (VNum oldest) ->
  DataValidator._detect_spike values
  = Return (py_gt (Qabs (float_sub latest oldest)) 50).
Proof.
  intros Hlen Hlast Hfirst. unfold DataValidator._detect_spike.
  destruct (Nat.ltb_spec (length values) 3) as [? | _]; [lia |].
  rewrite Hlast, Hfirst. reflexivity.
Qed.

(** The FORCE history once [_validate_force_reading] has run. *)
Lemma force_history_lookup
    (s : Settings) (current_time : Q) (self : DataValidator.t)
    (reading : SensorReading.t) :
  DataValidator.validation_history
    (snd (DataValidator._validate_force_reading s current_time self reading))
    FORCE
  = let history :=
      DataValidator.validation_history self FORCE
        ++ [HistoryEntry.Build current_time (SensorReading.value reading)] in
    if (50 <? length history)%nat then slice_from (-50) history else history.
Proof. rewrite force_history_after. apply fn_lookup_insert. Qed.

Section SpikeRule.
Variable s : Settings.
Variables (current_time : Q) (self : DataValidator.t).
Variables (reading : SensorReading.t) (x : Q).
Hypothesis Hkind : SensorReading.sensor_type reading = FORCE.
Hypothesis Hvalue : SensorReading.value reading = VNum x.
Hypothesis Hhigh : (x <= FORCE_THRESHOLD_HIGH s)%Q.
Hypothesis Hwarn :
  (x <= float_mul (FORCE_THRESHOLD_HIGH s) float_0_8)%Q.

Let res := DataValidator.validate_reading s current_time self reading.
Let history := DataValidator.validation_history (snd res) FORCE.
Let recent_values := map HistoryEntry.value (slice_from (-3) history).

Lemma below_thresholds :
  py_gt x (FORCE_THRESHOLD_HIGH s) = false
  /\ py_gt x (float_mul (FORCE_THRESHOLD_HIGH s) float_0_8) = false.
Proof. split; apply py_gt_false; assumption. Qed.

(** Below both thresholds the answer is that of the spike check. *)
Lemma below_thresholds_answer :
  fst res
  = if (3 <=? length history)%nat then
      match DataValidator._detect_spike recent_values with
      | Raise e => Raise e
      | Return true =>
          Return (Some
            {| ValidationResult.sensor_type := FORCE;
               ValidationResult.status := WARNING;
               ValidationResult.message := [Lit "Force spike detected"];
               ValidationResult.timestamp := current_time;
               ValidationResult.details :=
                 <["recent_values" := DValues recent_values]>
                 (<["spike_detected" := DScalar (PBool true)]> ∅) |})
      | Return false => Return None
      end
    else Return None.
Proof.
  destruct below_thresholds as [Hh Hw].
  unfold recent_values, history, res, DataValidator.validate_reading.
  rewrite Hkind, force_history_lookup.
  unfold DataValidator._validate_force_reading.
  rewrite Hvalue, Hh, Hw. cbv zeta.
  match goal with |- context [(3 <=? ?n)%nat] => destruct (3 <=? n)%nat end;
    [| reflexivity].
  match goal with |- context [DataValidator._detect_spike ?l] =>
    destruct (DataValidator._detect_spike l) as [[] | e] end; reflexivity.
Qed.

Lemma spike_alert (latest oldest : Q) :
  (3 <= length history)%nat ->
  index recent_values (-1) = Some (VNum latest) ->
  index recent_values 0 = Some (VNum oldest) ->
  (50 < Qabs (float_sub latest oldest))%Q ->
  exists a,
    fst res = Return (Some a)
    /\ ValidationResult.sensor_type a = FORCE
    /\ ValidationResult.status a = WARNING
    /\ ValidationResult.message a = [Lit "Force spike detected"]
    /\ ValidationResult.details a !! "recent_values"
       = Some (DValues recent_values)
    /\ length recent_values = 3%nat.
Proof.
  intros Hlen Hlast Hfirst Hchange.
  assert (length recent_values = 3%nat) as Hthree.
  { unfold recent_values. rewrite length_map.
    change (-3) with (- Z.of_nat 3). rewrite slice_from_last_length by lia.
    lia. }
  rewrite below_thresholds_answer.
  destruct (Nat.leb_spec 3 (length history)) as [_ | ?]; [| lia].
  rewrite (detect_spike_numbers recent_values latest oldest)
    by (try assumption; lia).
  apply py_gt_spec in Hchange. rewrite Hchange.
  eexists. split; [reflexivity |]. repeat split. exact Hthree.
Qed.

Lemma no_spike_no_alert :
  (length history < 3)%nat
  \/ (exists latest oldest,
        index recent_values (-1) = Some (VNum latest)
        /\ index recent_values 0 = Some (VNum oldest)
        /\ (Qabs (float_sub latest oldest) <= 50)%Q) ->
  fst res = Return None.
Proof.
  intros Hcase. rewrite below_thresholds_answer.
  destruct (Nat.leb_spec 3 (length history)) as [Hlen | Hlen];
    [| reflexivity].
  destruct Hcase as [? | (latest & oldest & Hlast & Hfirst & Hchange)];
    [lia |].
  assert (3 <= length recent_values)%nat as Hthree.
  { unfold recent_values. rewrite length_map.
    change (-3) with (- Z.of_nat 3). rewrite slice_from_last_length by lia.
    lia. }
  rewrite (detect_spike_numbers recent_values latest oldest) by assumption.
  apply py_gt_false in Hchange. rewrite Hchange. reflexivity.
Qed.
End SpikeRule.

(** The entry appended by the call is the latest of the recent values. *)
Lemma index_last_snoc {A : Type} (l : list A) (e : A) :
  index (l ++ [e]) (-1) = Some e.
Proof.
  unfold index. rewrite length_app. simpl.
  destruct (Z.ltb_spec (-1 + Z.of_nat (length l + 1)) 0) as [? | _]; [lia |].
  replace (Z.to_nat (-1 + Z.of_nat (length l + 1))) with (length l) by lia.
  rewrite lookup_app_r by lia. rewrite Nat.sub_diag. reflexivity.
Qed.

Lemma slice_from_last_snoc {A : Type} (n : nat) (l : list A) (e : A) :
  (0 < n)%nat ->
  exists l', slice_from (- Z.of_nat n) (l ++ [e]) = l' ++ [e].
Proof.
  intros Hn. rewrite slice_from_last by exact Hn.
  rewrite length_app. simpl.
  exists (drop (length l + 1 - n) l).
  rewrite drop_app_le by lia. reflexivity.
Qed.

Lemma latest_is_reading
    (s : Settings) (current_time : Q) (self : DataValidator.t)
    (reading : SensorReading.t) :
  index
    (map HistoryEntry.value
       (slice_from (-3)
          (DataValidator.validation_history
             (snd (DataValidator._validate_force_reading
                     s current_time self reading)) FORCE)))
    (-1)
  = Some (SensorReading.value reading).
Proof.
  rewrite force_history_lookup. cbv zeta.
  set (e := HistoryEntry.Build current_time (SensorReading.value reading)).
  assert (exists l1,
            (if (50 <? length (DataValidator.validation_history self FORCE ++ [e]))%nat
             then slice_from (-50) (DataValidator.validation_history self FORCE ++ [e])
             else DataValidator.validation_history self FORCE ++ [e])
            = l1 ++ [e]) as [l1 ->].
  { destruct (50 <? _)%nat.
    - change (-50) with (- Z.of_nat 50). apply slice_from_last_snoc. lia.
    - eexists. reflexivity. }
  change (-3) with (- Z.of_nat 3).
  destruct (slice_from_last_snoc 3 l1 e) as [l2 ->]; [lia |].
  rewrite map_app. simpl. apply index_last_snoc.
Qed.

(** C8: for a FORCE reading whose value is above neither
    [FORCE_THRESHOLD_HIGH] nor the float product
    [FORCE_THRESHOLD_HIGH * 0.8]: if the FORCE history, the reading
    included, has at least 3 entries and the float difference of the latest
    and the oldest of its last 3 values is above 50 in absolute value, the
    answer is the WARNING alert "Force spike detected" whose details hold
    these 3 values; if it has fewer than 3 entries, or the float difference
    is at most 50 in absolute value, there is no alert.  The latest of the
    recent values is the reading's. *)
Theorem force_spike_rule
    (s : Settings) (current_time : Q) (self : DataValidator.t)
    (reading : SensorReading.t) (x : Q) :
  SensorReading.sensor_type reading = FORCE ->
  SensorReading.value reading = VNum x ->
  (x <= FORCE_THRESHOLD_HIGH s)%Q ->
  (x <= float_mul (FORCE_THRESHOLD_HIGH s) float_0_8)%Q ->
  let res := DataValidator.validate_reading s current_time self reading in
  let history := DataValidator.validation_history (snd res) FORCE in
  let recent_values := map HistoryEntry.value (slice_from (-3) history) in
  index recent_values (-1) = Some (VNum x) /\
  (forall latest oldest : Q,
     (3 <= length history)%nat ->
     index recent_values (-1) = Some (VNum latest) ->
     index recent_values 0 = Some (VNum oldest) ->
     (50 < Qabs (float_sub latest oldest))%Q ->
     exists a,
       fst res = Return (Some a)
       /\ ValidationResult.sensor_type a = FORCE
       /\ ValidationResult.status a = WARNING
       /\ ValidationResult.message a = [Lit "Force spike detected"]
       /\ ValidationResult.details a !! "recent_values"
          = Some (DValues recent_values)
       /\ length recent_values = 3%nat) /\
  ((length history < 3)%nat
   \/ (exists latest oldest : Q,
         index recent_values (-1) = Some (VNum latest)
         /\ index recent_values 0 = Some (VNum oldest)
         /\ (Qabs (float_sub latest oldest) <= 50)%Q) ->
   fst res = Return None).
Proof.
  intros Hkind Hvalue Hhigh Hwarn res history recent_values.
  split; [| split].
  - unfold recent_values, history, res, DataValidator.validate_reading.
    rewrite Hkind, latest_is_reading, Hvalue. reflexivity.
  - intros latest oldest.
    apply (spike_alert s current_time self reading x Hkind Hvalue Hhigh Hwarn).
  - apply (no_spike_no_alert s current_time self reading x
             Hkind Hvalue Hhigh Hwarn).
Qed.

Lemma force_spike_rule_witness :
  exists a,
    fst (DataValidator.validate_reading
           settings 1234567892 validator_after_5_10
           (force_reading 1234567892 60))
    = Return (Some a)
    /\ ValidationResult.sensor_type a = FORCE
    /\ ValidationResult.status a = WARNING
    /\ ValidationResult.message a = [Lit "Force spike detected"]
    /\ ValidationResult.details a !! "recent_values"
       = Some (DValues
                 (map HistoryEntry.value
                    (slice_from (-3)
                       (DataValidator.validation_history
                          (snd (DataValidator.validate_reading
                                  settings 1234567892 validator_after_5_10
                                  (force_reading 1234567892 60)))
                          FORCE))))
    /\ length
         (map HistoryEntry.value
            (slice_from (-3)
               (DataValidator.validation_history
                  (snd (DataValidator.validate_reading
                          settings 1234567892 validator_after_5_10
                          (force_reading 1234567892 60)))
                  FORCE)))
       = 3%nat.
Proof.
  assert (60 <= FORCE_THRESHOLD_HIGH settings)%Q as Hhigh
    by (vm_compute; discriminate).
  assert (60 <= float_mul (FORCE_THRESHOLD_HIGH settings) float_0_8)%Q
    as Hwarn by (vm_compute; discriminate).
  apply (proj1 (proj2 (force_spike_rule
                         settings 1234567892 validator_after_5_10
                         (force_reading 1234567892 60) 60
                         eq_refl eq_refl Hhigh Hwarn))
           60%Q 5%Q).
  - vm_compute. lia.
  - vm_compute. reflexivity.
  - vm_compute. reflexivity.
  - vm_compute. reflexivity.
Defined.

(** C8, the claim as written fails in two ways.  At a rounding boundary:
    after the FORCE readings 0.07 and 1.0, the reading 50.07 is at most 0.8
    times the threshold 80 and differs from the oldest of the last 3 values
    by more than 50, yet it gets no alert: the source tests the float
    [50.07 - 0.07], which is 50.0.  And being at most 0.8 times the
    threshold does not put a reading below the threshold when the threshold
    is negative: with the threshold at -10 the reading -9 is answered with
    an ERROR alert. *)
Lemma force_spike_exact_difference_fails :
  ((float_50_07 <= (8#10) * FORCE_THRESHOLD_HIGH settings)%Q
   /\ map HistoryEntry.value
        (slice_from (-3)
           (DataValidator.validation_history
              (snd (DataValidator.validate_reading
                      settings 3 validator_after_0_07_1
                      (force_reading 3 float_50_07)))
              FORCE))
      = [VNum float_0_07; VNum 1; VNum float_50_07]
   /\ (50 < Qabs (float_50_07 - float_0_07))%Q
   /\ float_sub float_50_07 float_0_07 = 50%Q
   /\ fst (DataValidator.validate_reading
             settings 3 validator_after_0_07_1
             (force_reading 3 float_50_07))
      = Return None)
  /\ ((-9 <= (8#10) * FORCE_THRESHOLD_HIGH (with_force_threshold (-10)))%Q
      /\ severity (alert_of (DataValidator.validate_reading
                               (with_force_threshold (-10)) 1
                               DataValidator.__init__
                               (force_reading 1 (-9))))
         = Return (Some ERROR)).
Proof.
  split.
  - split; [vm_compute; discriminate |].
    split; [vm_compute; reflexivity |].
    split; [vm_compute; reflexivity |].
    split; vm_compute; reflexivity.
  - split; [vm_compute; discriminate | vm_compute; reflexivity].
Qed.

(** ** Broadcasting *)

Section Broadcast.
Variable send_text : WebSocket -> message -> bool.

Lemma send_loop_spec (message : message) (connections active : list WebSocket) :
  DataManager.send_loop send_text message connections active
  = (active ++ accepting send_text message connections,
     deliveries send_text message connections).
Proof.
  unfold deliveries, accepting. revert active.
  induction connections as [| websocket rest IH]; intros active; simpl.
  - rewrite app_nil_r. reflexivity.
  - destruct (send_text websocket message); simpl.
    + rewrite IH, <- app_assoc. reflexivity.
    + apply IH.
Qed.

Lemma broadcast_message_spec (message : message) (self : DataManager.t) :
  DataManager._broadcast_message send_text message self
  = (DataManager.set_websocket_connections
       (accepting send_text message (DataManager.websocket_connections self))
       self,
     deliveries send_text message (DataManager.websocket_connections self)).
Proof.
  unfold DataManager._broadcast_message.
  destruct self as [data results connections rec start validator].
  destruct connections as [| websocket rest]; [reflexivity |].
  cbn [DataManager.websocket_connections]. rewrite send_loop_spec. reflexivity.
Qed.

Lemma broadcast_sensor_data_spec (reading : SensorReading.t)
    (self : DataManager.t) :
  DataManager._broadcast_sensor_data send_text reading self
  = DataManager._broadcast_message
      send_text {| type := "sensor_data"; data := reading_dict reading |} self.
Proof.
  unfold DataManager._broadcast_sensor_data, DataManager._broadcast_message.
  destruct (DataManager.websocket_connections self); reflexivity.
Qed.

Lemma accepting_In (message : message) (connections : list WebSocket)
    (websocket : WebSocket) :
  In websocket (accepting send_text message connections)
  <-> In websocket connections /\ send_text websocket message = true.
Proof. unfold accepting. apply filter_In. Qed.

Lemma deliveries_In (message : message) (connections : list WebSocket)
    (websocket : WebSocket) :
  In (websocket, message) (deliveries send_text message connections)
  <-> In websocket connections /\ send_text websocket message = true.
Proof.
  unfold deliveries. rewrite in_map_iff. split.
  - intros (w & Heq & Hin). injection Heq as ->. apply accepting_In, Hin.
  - intros Hin. exists websocket. split; [reflexivity |].
    apply accepting_In, Hin.
Qed.
End Broadcast.

(** C5: a broadcast always returns.  An observer whose [send_text] fails is
    not in the connection list afterwards; an observer whose [send_text]
    succeeds has been sent the message and stays connected, whatever
    happened to the others; nothing else of the data manager changes.
    [_broadcast_sensor_data] is [_broadcast_message] on the sensor_data
    message. *)
Theorem broadcast_drops_failed_observers
    (send_text : WebSocket -> message -> bool) (message : message)
    (reading : SensorReading.t) (self : DataManager.t) :
  (exists self' sent,
     DataManager._broadcast_message send_text message self = (self', sent)
     /\ (forall websocket,
           In websocket (DataManager.websocket_connections self) ->
           send_text websocket message = false ->
           ~ In websocket (DataManager.websocket_connections self'))
     /\ (forall websocket,
           In websocket (DataManager.websocket_connections self) ->
           send_text websocket message = true ->
           In (websocket, message) sent
           /\ In websocket (DataManager.websocket_connections self'))
     /\ DataManager.websocket_connections self'
        = accepting send_text message (DataManager.websocket_connections self)
     /\ sent
        = deliveries send_text message (DataManager.websocket_connections self)
     /\ self'
        = DataManager.set_websocket_connections
            (DataManager.websocket_connections self') self)
  /\ DataManager._broadcast_sensor_data send_text reading self
     = DataManager._broadcast_message
         send_text {| type := "sensor_data"; data := reading_dict reading |}
         self.
Proof.
  split; [| apply broadcast_sensor_data_spec].
  rewrite broadcast_message_spec. eexists. eexists.
  split; [reflexivity |].
  destruct self as [data results connections rec start validator].
  cbn [DataManager.websocket_connections DataManager.set_websocket_connections].
  split; [| split; [| split; [| split]]]; try reflexivity.
  - intros websocket Hin Hfail Hkept.
    apply accepting_In in Hkept as [_ Hok]. congruence.
  - intros websocket Hin Hok. split.
    + apply deliveries_In. split; assumption.
    + apply accepting_In. split; assumption.
Qed.

(** ** Registering and unregistering observers *)

Lemma remove_absent (websocket : WebSocket) (connections : list WebSocket) :
  ~ In websocket connections ->
  DataManager.remove websocket connections = connections.
Proof.
  induction connections as [| w rest IH]; intros Hnot; simpl.
  - reflexivity.
  - destruct (decide (w = websocket)) as [-> | Hne].
    + exfalso. apply Hnot. left. reflexivity.
    + f_equal. apply IH. intros Hin. apply Hnot. right. exact Hin.
Qed.

(** [list.remove] takes out one entry, the first one. *)
Lemma remove_first (websocket : WebSocket) (before after : list WebSocket) :
  ~ In websocket before ->
  DataManager.remove websocket (before ++ websocket :: after) = before ++ after.
Proof.
  induction before as [| w rest IH]; intros Hnot; simpl.
  - destruct (decide (websocket = websocket)); [reflexivity | congruence].
  - destruct (decide (w = websocket)) as [-> | Hne].
    + exfalso. apply Hnot. left. reflexivity.
    + f_equal. apply IH. intros Hin. apply Hnot. right. exact Hin.
Qed.

(** One [list.remove] takes away one registration of that observer. *)
Lemma remove_registrations (websocket other : WebSocket)
    (connections : list WebSocket) :
  registrations other (DataManager.remove websocket connections)
  = if decide (other = websocket)
    then Nat.pred (registrations websocket connections)
    else registrations other connections.
Proof.
  unfold registrations.
  induction connections as [| w rest IH]; simpl.
  - destruct (decide (other = websocket)); reflexivity.
  - destruct (decide (w = websocket)) as [-> | Hne].
    + destruct (decide (other = websocket)) as [-> | Hother].
      * destruct (Nat.eq_dec websocket websocket); [reflexivity | congruence].
      * destruct (Nat.eq_dec websocket other); [congruence | reflexivity].
    + simpl. rewrite IH.
      destruct (decide (other = websocket)) as [-> | Hother].
      * destruct (Nat.eq_dec w websocket); [congruence | reflexivity].
      * reflexivity.
Qed.

Lemma registrations_snoc (websocket other : WebSocket)
    (connections : list WebSocket) :
  registrations other (connections ++ [websocket])
  = (registrations other connections
     + if decide (other = websocket) then 1 else 0)%nat.
Proof.
  unfold registrations. rewrite count_occ_app. simpl.
  destruct (Nat.eq_dec websocket other) as [Heq | Hne];
    destruct (decide (other = websocket)); congruence.
Qed.

Lemma deliveries_snoc (send_text : WebSocket -> message -> bool)
    (message : message) (websocket : WebSocket)
    (connections : list WebSocket) :
  deliveries send_text message (connections ++ [websocket])
  = deliveries send_text message connections
    ++ (if send_text websocket message then [(websocket, message)] else []).
Proof.
  unfold deliveries, accepting. rewrite List.filter_app, map_app. simpl.
  destruct (send_text websocket message); reflexivity.
Qed.

(** C4, as the code has it.  Registering appends the observer to the list
    of connections, whether or not it is already there, and changes nothing
    else.  So the observer has one registration more and every other
    observer as many as before; a broadcast delivers what it delivered
    before and then, if the observer accepts the message, the message to
    that observer once more; the [connected_clients] of a data summary is
    the former number of connections plus one; and if the observer was
    already registered, the data manager is not what it was, and the
    observer is still registered after one unregistration.  Unregistering
    an observer that is not in the list changes nothing. *)
Theorem register_appends_unregister_absent_noop
    (send_text : WebSocket -> message -> bool) (message : message)
    (websocket : WebSocket) (self : DataManager.t) :
  let registered := DataManager.add_websocket_connection websocket self in
  registered
  = DataManager.set_websocket_connections
      (DataManager.websocket_connections self ++ [websocket]) self
  /\ (forall other : WebSocket,
        registrations other (DataManager.websocket_connections registered)
        = (registrations other (DataManager.websocket_connections self)
           + if decide (other = websocket) then 1 else 0)%nat)
  /\ snd (DataManager._broadcast_message send_text message registered)
     = snd (DataManager._broadcast_message send_text message self)
       ++ (if send_text websocket message then [(websocket, message)]
           else [])
  /\ (forall stats,
        DataManager.get_data_summary registered = summary_full stats ->
        connected_clients stats
        = Z.of_nat (length (DataManager.websocket_connections self)) + 1)
  /\ (In websocket (DataManager.websocket_connections self) ->
      registered <> self
      /\ (2 <= registrations websocket
                 (DataManager.websocket_connections registered))%nat
      /\ In websocket
           (DataManager.websocket_connections
              (DataManager.remove_websocket_connection websocket registered)))
  /\ (~ In websocket (DataManager.websocket_connections self) ->
      DataManager.remove_websocket_connection websocket self = self).
Proof.
  intros registered.
  assert (DataManager.websocket_connections registered
          = DataManager.websocket_connections self ++ [websocket])
    as Hconnections by reflexivity.
  split; [reflexivity |]. split; [| split; [| split; [| split]]].
  - intros other. rewrite Hconnections. apply registrations_snoc.
  - rewrite !broadcast_message_spec. cbn [snd]. rewrite Hconnections.
    apply deliveries_snoc.
  - intros stats Hsummary. unfold DataManager.get_data_summary in Hsummary.
    change (DataManager.sensor_data registered)
      with (DataManager.sensor_data self) in Hsummary.
    destruct (DataManager.sensor_data self); [discriminate |].
    injection Hsummary as <-. cbn [connected_clients].
    rewrite length_app. simpl. lia.
  - intros Hin.
    assert (1 <= registrations websocket
                   (DataManager.websocket_connections self))%nat as Hone
      by (apply count_occ_In, Hin).
    split; [| split].
    + intros Heq.
      apply (f_equal (fun dm => length (DataManager.websocket_connections dm)))
        in Heq.
      rewrite Hconnections, length_app in Heq. simpl in Heq. lia.
    + rewrite Hconnections, registrations_snoc.
      destruct (decide (websocket = websocket)); [lia | congruence].
    + unfold DataManager.remove_websocket_connection.
      destruct (decide (websocket ∈ DataManager.websocket_connections registered))
        as [_ | Hout].
      * cbn [DataManager.websocket_connections
             DataManager.set_websocket_connections].
        apply (count_occ_In Nat.eq_dec).
        fold (registrations websocket
                (DataManager.remove websocket
                   (DataManager.websocket_connections registered))).
        rewrite remove_registrations, Hconnections, registrations_snoc.
        destruct (decide (websocket = websocket)); [lia | congruence].
      * exfalso. apply Hout. rewrite Hconnections.
        apply list_elem_of_In, in_or_app. right. left. reflexivity.
  - intros Hnot. unfold DataManager.remove_websocket_connection.
    destruct (decide (websocket ∈ DataManager.websocket_connections self))
      as [Hin | _]; [| reflexivity].
    exfalso. apply Hnot. apply list_elem_of_In. exact Hin.
Qed.

(** Client 2 registers again while the clients 1, 2 and 3 are connected,
    and client 7, which is not connected, unregisters. *)
Lemma register_appends_unregister_absent_noop_witness :
  (DataManager.add_websocket_connection 2%nat three_clients <> three_clients
   /\ (2 <= registrations 2%nat
              (DataManager.websocket_connections
                 (DataManager.add_websocket_connection 2%nat three_clients)))%nat
   /\ In 2%nat
        (DataManager.websocket_connections
           (DataManager.remove_websocket_connection 2%nat
              (DataManager.add_websocket_connection 2%nat three_clients))))
  /\ DataManager.remove_websocket_connection 7%nat three_clients
     = three_clients.
Proof.
  split.
  - apply (proj1 (proj2 (proj2 (proj2 (proj2
             (register_appends_unregister_absent_noop
                all_delivered (system_status_message true 0 0)
                2%nat three_clients)))))).
    simpl. right. left. reflexivity.
  - apply (proj2 (proj2 (proj2 (proj2 (proj2
             (register_appends_unregister_absent_noop
                all_delivered (system_status_message true 0 0)
                7%nat three_clients)))))).
    simpl. intros [H | [H | [H | []]]]; discriminate H.
Defined.

(** Registering an observer that is already registered is not a no-op: the
    list holds it twice, the client count goes from 1 to 2, a broadcast sends
    it the message twice, and one unregistration leaves it registered. *)
Lemma register_twice_not_noop :
  let once := DataManager.add_websocket_connection 7%nat DataManager.__init__ in
  let twice := DataManager.add_websocket_connection 7%nat once in
  let ping :=
    {| type := "sensor_data";
       data := reading_dict (force_reading 1 30) |} in
  twice <> once
  /\ DataManager.websocket_connections once = [7%nat]
  /\ DataManager.websocket_connections twice = [7%nat; 7%nat]
  /\ snd (DataManager._broadcast_message all_delivered ping once)
     = [(7%nat, ping)]
  /\ snd (DataManager._broadcast_message all_delivered ping twice)
     = [(7%nat, ping); (7%nat, ping)]
  /\ DataManager.websocket_connections
       (DataManager.remove_websocket_connection 7%nat twice) = [7%nat].
Proof.
  cbv zeta. split; [| repeat split].
  intros Heq.
  apply (f_equal (fun dm => length (DataManager.websocket_connections dm)))
    in Heq.
  simpl in Heq. discriminate Heq.
Qed.

(** ** Starting and stopping a session *)

(** The guards are in the routes: [start_recording] itself does not look at
    [recording] and empties both buffers. *)
Lemma start_recording_clears
    (send_text : WebSocket -> message -> bool) (now now' : Q)
    (self : DataManager.t) :
  let self' := fst (DataManager.start_recording send_text now now' self) in
  DataManager.recording self' = true
  /\ DataManager.sensor_data self' = []
  /\ DataManager.validation_results self' = []
  /\ DataManager.session_start_time self' = Some now.
Proof.
  cbv zeta. unfold DataManager.start_recording,
    DataManager._broadcast_system_status.
  rewrite broadcast_message_spec. repeat split.
Qed.

(** C1: with the system initialised, [start_session] on a data manager that
    is recording raises HTTP 400, changes nothing (readings, alerts, sensors,
    connections) and sends nothing; [stop_session] on a data manager that is
    not recording does the same. *)
Theorem session_guards
    (send_text : WebSocket -> message -> bool) (session_id : string)
    (now now' : Q) (ev : events)
    (dm : DataManager.t) (sm : SensorManager.t) :
  data_manager ev = Some dm ->
  sensor_manager ev = Some sm ->
  (DataManager.recording dm = true ->
   start_session send_text session_id now now' ev
   = (Raise (HTTPException 400 "Session already in progress"), ev, []))
  /\ (DataManager.recording dm = false ->
      stop_session send_text session_id now now' ev
      = (Raise (HTTPException 400 "No active session to stop"), ev, [])).
Proof.
  intros Hdm Hsm. split; intros Hrec.
  - unfold start_session. rewrite Hdm, Hsm, Hrec. reflexivity.
  - unfold stop_session. rewrite Hdm, Hsm, Hrec. reflexivity.
Qed.

Lemma session_guards_witness :
  stop_session all_delivered "5f0c" 10 11 started_up
  = (Raise (HTTPException 400 "No active session to stop"), started_up, [])
  /\ start_session all_delivered "5f0d" 12 13
       (snd (fst (start_session all_delivered "5f0c" 10 11 started_up)))
     = (Raise (HTTPException 400 "Session already in progress"),
        snd (fst (start_session all_delivered "5f0c" 10 11 started_up)), []).
Proof.
  split.
  - apply (proj2 (session_guards all_delivered "5f0c" 10 11 started_up
                    DataManager.__init__ SensorManager.__init__
                    eq_refl eq_refl)).
    reflexivity.
  - apply (proj1 (session_guards all_delivered "5f0d" 12 13
                    (snd (fst (start_session all_delivered "5f0c" 10 11
                                 started_up)))
                    (fst (DataManager.start_recording
                            all_delivered 10 11 DataManager.__init__))
                    (SensorManager.start_all SensorManager.__init__)
                    eq_refl eq_refl)).
    reflexivity.
Defined.

(** ** One reading through [add_sensor_data] *)

(** Replaces each broadcast by what [broadcast_message_spec] says of it. *)
Ltac run_broadcasts :=
  repeat (first [ rewrite broadcast_sensor_data_spec
                | rewrite broadcast_message_spec ];
          cbv beta iota zeta).

Section Ingestion.
Variable s : Settings.
Variable send_text : WebSocket -> message -> bool.
Variables (current_time : Q) (reading : SensorReading.t).
Variable self : DataManager.t.

Let stored : list SensorReading.t :=
  if DataManager.recording self
  then accept s reading (DataManager.sensor_data self)
  else DataManager.sensor_data self.

(** When validation returns [validation_result] (an alert or [None]). *)
Lemma add_sensor_data_returns
    (validation_result : option ValidationResult.t)
    (validator' : DataValidator.t) :
  DataValidator.validate_reading s current_time (DataManager.validator self)
                                 reading
  = (Return validation_result, validator') ->
  let connections := DataManager.websocket_connections self in
  let after_validation :=
    match validation_result with
    | Some alert => accepting send_text (validation_message alert) connections
    | None => connections
    end in
  DataManager.add_sensor_data s send_text current_time reading self
  = (Return tt,
     {| DataManager.sensor_data := stored;
        DataManager.validation_results :=
          match validation_result with
          | Some alert => DataManager.validation_results self ++ [alert]
          | None => DataManager.validation_results self
          end;
        DataManager.websocket_connections :=
          accepting send_text (sensor_data_message reading) after_validation;
        DataManager.recording := DataManager.recording self;
        DataManager.session_start_time := DataManager.session_start_time self;
        DataManager.validator := validator' |},
     match validation_result with
     | Some alert => deliveries send_text (validation_message alert) connections
     | None => []
     end
     ++ deliveries send_text (sensor_data_message reading) after_validation).
Proof.
  intros Hvalid. cbv zeta. unfold stored, accept.
  destruct self as [data results connections rec start validator].
  cbn [DataManager.validator DataManager.recording DataManager.sensor_data
       DataManager.validation_results DataManager.websocket_connections
       DataManager.session_start_time] in *.
  unfold DataManager.add_sensor_data.
  destruct rec;
    cbn [DataManager.recording DataManager.set_sensor_data
         DataManager.sensor_data DataManager.validation_results
         DataManager.websocket_connections DataManager.session_start_time
         DataManager.validator].
  - destruct (Z.of_nat (length (data ++ [reading])) >? MAX_DATA_POINTS s);
      cbn [DataManager.validator DataManager.set_sensor_data
           DataManager.sensor_data DataManager.validation_results
           DataManager.websocket_connections DataManager.session_start_time
           DataManager.recording];
      rewrite Hvalid; destruct validation_result as [alert |];
      unfold DataManager._broadcast_validation;
      run_broadcasts; reflexivity.
  - rewrite Hvalid; destruct validation_result as [alert |];
      unfold DataManager._broadcast_validation;
      run_broadcasts; reflexivity.
Qed.

(** When validation raises: the reading has been stored already, the
    validator keeps what it recorded, and nothing is broadcast. *)
Lemma add_sensor_data_raises (e : exn) (validator' : DataValidator.t) :
  DataValidator.validate_reading s current_time (DataManager.validator self)
                                 reading
  = (Raise e, validator') ->
  DataManager.add_sensor_data s send_text current_time reading self
  = (Raise e,
     {| DataManager.sensor_data := stored;
        DataManager.validation_results := DataManager.validation_results self;
        DataManager.websocket_connections :=
          DataManager.websocket_connections self;
        DataManager.recording := DataManager.recording self;
        DataManager.session_start_time := DataManager.session_start_time self;
        DataManager.validator := validator' |},
     []).
Proof.
  intros Hvalid. unfold stored, accept.
  destruct self as [data results connections rec start validator].
  cbn [DataManager.validator DataManager.recording DataManager.sensor_data
       DataManager.validation_results DataManager.websocket_connections
       DataManager.session_start_time] in *.
  unfold DataManager.add_sensor_data.
  destruct rec;
    cbn [DataManager.recording DataManager.set_sensor_data
         DataManager.sensor_data DataManager.validation_results
         DataManager.websocket_connections DataManager.session_start_time
         DataManager.validator].
  - destruct (Z.of_nat (length (data ++ [reading])) >? MAX_DATA_POINTS s);
      cbn [DataManager.validator DataManager.set_sensor_data
           DataManager.sensor_data DataManager.validation_results
           DataManager.websocket_connections DataManager.session_start_time
           DataManager.recording];
      rewrite Hvalid; reflexivity.
  - rewrite Hvalid; reflexivity.
Qed.

(** Whatever validation answers, the stored readings are those of the
    first step and the recording flag is not touched. *)
Lemma add_sensor_data_stored :
  let self' :=
    snd (fst (DataManager.add_sensor_data s send_text current_time reading
                                          self)) in
  DataManager.sensor_data self' = stored
  /\ DataManager.recording self' = DataManager.recording self.
Proof.
  cbv zeta.
  destruct (DataValidator.validate_reading
              s current_time (DataManager.validator self) reading)
    as [[validation_result | e] validator'] eqn:Hvalid.
  - rewrite (add_sensor_data_returns _ _ Hvalid). split; reflexivity.
  - rewrite (add_sensor_data_raises _ _ Hvalid). split; reflexivity.
Qed.
End Ingestion.

(** ** Well-typed readings are validated without an exception *)

Lemma index_In {A : Type} (l : list A) (i : Z) (x : A) :
  index l i = Some x -> In x l.
Proof.
  unfold index. destruct (_ <? 0); [discriminate |].
  intros Hlookup. apply list_elem_of_In.
  apply list_elem_of_lookup. eexists. exact Hlookup.
Qed.

Lemma index_in_range {A : Type} (l : list A) (i : Z) :
  - Z.of_nat (length l) <= i < Z.of_nat (length l) ->
  exists x, index l i = Some x.
Proof.
  intros Hrange. unfold index.
  destruct (Z.ltb_spec i 0) as [Hneg | Hpos].
  - destruct (Z.ltb_spec (i + Z.of_nat (length l)) 0) as [? | _]; [lia |].
    apply lookup_lt_is_Some. lia.
  - destruct (Z.ltb_spec i 0) as [? | _]; [lia |].
    apply lookup_lt_is_Some. lia.
Qed.

Lemma detect_spike_returns (values : list value) :
  forallb is_number values = true ->
  exists spike, DataValidator._detect_spike values = Return spike.
Proof.
  intros Hnum. unfold DataValidator._detect_spike.
  destruct (Nat.ltb_spec (length values) 3) as [_ | Hlen];
    [eexists; reflexivity |].
  destruct (index_in_range values (-1)) as [last Hlast]; [lia |].
  destruct (index_in_range values 0) as [first Hfirst]; [lia |].
  rewrite Hlast, Hfirst.
  rewrite forallb_forall in Hnum.
  pose proof (Hnum _ (index_In _ _ _ Hlast)) as Hl.
  pose proof (Hnum _ (index_In _ _ _ Hfirst)) as Hf.
  destruct last; [| discriminate]. destruct first; [| discriminate].
  eexists. reflexivity.
Qed.

Lemma forallb_slice_from {A : Type} (P : A -> bool) (start : Z) (l : list A) :
  forallb P l = true -> forallb P (slice_from start l) = true.
Proof.
  unfold slice_from. rewrite !forallb_forall. intros Hall x Hin.
  apply Hall. rewrite <- (take_drop (Z.to_nat
    (if start <? 0 then Z.max 0 (start + Z.of_nat (length l))
     else Z.min start (Z.of_nat (length l)))) l).
  apply in_or_app. right. exact Hin.
Qed.

Lemma validate_reading_returns
    (s : Settings) (current_time : Q) (self : DataValidator.t)
    (reading : SensorReading.t) :
  well_typed reading = true ->
  numeric_history self = true ->
  exists validation_result self',
    DataValidator.validate_reading s current_time self reading
    = (Return validation_result, self')
    /\ numeric_history self' = true.
Proof.
  intros Htyped Hnum. unfold well_typed in Htyped.
  unfold DataValidator.validate_reading.
  destruct (SensorReading.sensor_type reading);
    destruct (SensorReading.value reading) as [x | camera_data] eqn:Hvalue;
    try discriminate.
  - (* FORCE *)
    unfold DataValidator._validate_force_reading. rewrite Hvalue.
    set (history :=
           if (50 <? length (DataValidator.validation_history self FORCE
                             ++ [HistoryEntry.Build current_time (VNum x)]))%nat
           then slice_from (-50)
                  (DataValidator.validation_history self FORCE
                   ++ [HistoryEntry.Build current_time (VNum x)])
           else DataValidator.validation_history self FORCE
                ++ [HistoryEntry.Build current_time (VNum x)]).
    assert (forallb (fun entry => is_number (HistoryEntry.value entry)) history
            = true) as Hhistory.
    { assert (forallb (fun entry => is_number (HistoryEntry.value entry))
                (DataValidator.validation_history self FORCE
                 ++ [HistoryEntry.Build current_time (VNum x)]) = true) as Happ.
      { rewrite forallb_app. unfold numeric_history in Hnum. rewrite Hnum.
        reflexivity. }
      unfold history. destruct (50 <? _)%nat; [| exact Happ].
      apply forallb_slice_from, Happ. }
    assert (numeric_history
              {| DataValidator.validation_history :=
                   <[FORCE := history]> (DataValidator.validation_history self) |}
            = true) as Hnum'.
    { unfold numeric_history. cbn [DataValidator.validation_history].
      rewrite fn_lookup_insert. exact Hhistory. }
    destruct (py_gt x (FORCE_THRESHOLD_HIGH s)) eqn:Hhigh; [eauto |].
    destruct (py_gt x (float_mul (FORCE_THRESHOLD_HIGH s) float_0_8))
      eqn:Hwarn.
    { apply py_gt_false in Hhigh. apply py_gt_spec in Hwarn.
      destruct (approaching_limit_divides _ _ Hwarn Hhigh) as [ratio ->].
      eauto. }
    destruct (3 <=? length history)%nat; [| eauto].
    destruct (detect_spike_returns
                (map HistoryEntry.value (slice_from (-3) history)))
      as [spike Hspike].
    { rewrite forallb_forall. intros v Hin.
      apply in_map_iff in Hin as (entry & <- & Hentry).
      pose proof (forallb_slice_from _ (-3) _ Hhistory) as Hrecent.
      rewrite forallb_forall in Hrecent. apply Hrecent, Hentry. }
    rewrite Hspike. destruct spike; eauto.
  - (* MOTOR *)
    unfold DataValidator._validate_motor_reading. rewrite Hvalue.
    destruct (py_gt (Qabs x) (MOTOR_THRESHOLD s)); eauto.
  - (* CAMERA *)
    unfold DataValidator._validate_camera_reading. rewrite Hvalue.
    destruct (as_number _) as [b | e]; [| discriminate].
    destruct (py_lt b 30); [eauto |].
    destruct (py_gt b 240); eauto.
Qed.

(** C6: for a reading that satisfies the data model, on a data manager whose
    validator holds numbers only, validation returns an alert or [None], and
    [add_sensor_data] returns having done, in this order:
    (1) stored the reading if and only if it is recording;
    (2) if there is an alert, appended it to the validation results and sent
        the validation message to every connection that accepts it;
    (3) sent the sensor_data message to every connection left that accepts
        it, whether recording or not, alert or not.
    The deliveries of (2) come before those of (3) in the trace. *)
Theorem ingestion_steps
    (s : Settings) (send_text : WebSocket -> message -> bool)
    (current_time : Q) (reading : SensorReading.t) (self : DataManager.t) :
  well_typed reading = true ->
  numeric_history (DataManager.validator self) = true ->
  exists (validation_result : option ValidationResult.t)
         (validator' : DataValidator.t),
    DataValidator.validate_reading s current_time (DataManager.validator self)
                                   reading
    = (Return validation_result, validator')
    /\ numeric_history validator' = true
    /\ DataManager.add_sensor_data s send_text current_time reading self
       = (Return tt,
          {| DataManager.sensor_data :=
               if DataManager.recording self
               then accept s reading (DataManager.sensor_data self)
               else DataManager.sensor_data self;
             DataManager.validation_results :=
               match validation_result with
               | Some alert => DataManager.validation_results self ++ [alert]
               | None => DataManager.validation_results self
               end;
             DataManager.websocket_connections :=
               accepting send_text (sensor_data_message reading)
                 match validation_result with
                 | Some alert =>
                     accepting send_text (validation_message alert)
                               (DataManager.websocket_connections self)
                 | None => DataManager.websocket_connections self
                 end;
             DataManager.recording := DataManager.recording self;
             DataManager.session_start_time :=
               DataManager.session_start_time self;
             DataManager.validator := validator' |},
          match validation_result with
          | Some alert =>
              deliveries send_text (validation_message alert)
                         (DataManager.websocket_connections self)
          | None => []
          end
          ++ deliveries send_text (sensor_data_message reading)
               match validation_result with
               | Some alert =>
                   accepting send_text (validation_message alert)
                             (DataManager.websocket_connections self)
               | None => DataManager.websocket_connections self
               end).
Proof.
  intros Htyped Hnum.
  destruct (validate_reading_returns s current_time
              (DataManager.validator self) reading Htyped Hnum)
    as (validation_result & validator' & Hvalid & Hnum').
  exists validation_result, validator'.
  split; [exact Hvalid |]. split; [exact Hnum' |].
  apply (add_sensor_data_returns s send_text current_time reading self
           validation_result validator' Hvalid).
Qed.

Lemma ingestion_steps_witness :
  exists (validation_result : option ValidationResult.t)
         (validator' : DataValidator.t),
    DataValidator.validate_reading
      settings 1234567892 (DataManager.validator three_clients)
      (force_reading 1234567892 85)
    = (Return validation_result, validator')
    /\ numeric_history validator' = true
    /\ DataManager.add_sensor_data
         settings second_closed 1234567892 (force_reading 1234567892 85)
         three_clients
       = (Return tt,
          {| DataManager.sensor_data :=
               accept settings (force_reading 1234567892 85) [];
             DataManager.validation_results :=
               match validation_result with
               | Some alert => [alert]
               | None => []
               end;
             DataManager.websocket_connections :=
               accepting second_closed
                 (sensor_data_message (force_reading 1234567892 85))
                 match validation_result with
                 | Some alert =>
                     accepting second_closed (validation_message alert)
                               [1%nat; 2%nat; 3%nat]
                 | None => [1%nat; 2%nat; 3%nat]
                 end;
             DataManager.recording := true;
             DataManager.session_start_time := None;
             DataManager.validator := validator' |},
          match validation_result with
          | Some alert =>
              deliveries second_closed (validation_message alert)
                         [1%nat; 2%nat; 3%nat]
          | None => []
          end
          ++ deliveries second_closed
               (sensor_data_message (force_reading 1234567892 85))
               match validation_result with
               | Some alert =>
                   accepting second_closed (validation_message alert)
                             [1%nat; 2%nat; 3%nat]
               | None => [1%nat; 2%nat; 3%nat]
               end).
Proof.
  exact (ingestion_steps settings second_closed 1234567892
           (force_reading 1234567892 85) three_clients eq_refl eq_refl).
Defined.

(** The same call, evaluated: clients 1 and 3 get the validation message
    and then the sensor_data message, client 2 gets nothing and is gone. *)
Lemma ingestion_scenario :
  let '(result, self', sent) :=
    DataManager.add_sensor_data
      settings second_closed 1234567892 (force_reading 1234567892 85)
      three_clients in
  result = Return tt
  /\ map SensorReading.timestamp (DataManager.sensor_data self')
     = [1234567892%Q]
  /\ map ValidationResult.status (DataManager.validation_results self')
     = [ERROR]
  /\ DataManager.websocket_connections self' = [1%nat; 3%nat]
  /\ map (fun d => (fst d, type (snd d))) sent
     = [ (1%nat, "validation"); (3%nat, "validation");
         (1%nat, "sensor_data"); (3%nat, "sensor_data") ].
Proof. vm_compute. repeat split. Qed.

(** ** The bounded buffer of readings *)

Section Buffer.
Variable s : Settings.
Variable send_text : WebSocket -> message -> bool.

(** With a capacity of at least one, storing a reading in a buffer that is
    within the capacity drops the oldest reading exactly when the buffer is
    full. *)
Lemma accept_fifo (reading : SensorReading.t) (buffer : list SensorReading.t) :
  1 <= MAX_DATA_POINTS s ->
  Z.of_nat (length buffer) <= MAX_DATA_POINTS s ->
  accept s reading buffer
  = drop (length buffer + 1 - Z.to_nat (MAX_DATA_POINTS s))
         (buffer ++ [reading]).
Proof.
  intros Hcap Hfit. unfold accept. rewrite length_app. simpl.
  destruct (Z.gtb_spec (Z.of_nat (length buffer + 1)) (MAX_DATA_POINTS s))
    as [Hfull | Hroom].
  - rewrite <- (Z2Nat.id (MAX_DATA_POINTS s)) at 1 by lia.
    rewrite slice_from_last by lia. rewrite length_app. simpl. reflexivity.
  - replace (length buffer + 1 - Z.to_nat (MAX_DATA_POINTS s))%nat
      with 0%nat by lia.
    reflexivity.
Qed.

(** With a capacity of at least one the buffer is within the capacity after
    every stored reading, whatever its length was. *)
Lemma accept_bounded (reading : SensorReading.t)
    (buffer : list SensorReading.t) :
  1 <= MAX_DATA_POINTS s ->
  Z.of_nat (length (accept s reading buffer)) <= MAX_DATA_POINTS s.
Proof.
  intros Hcap. unfold accept.
  destruct (Z.gtb_spec (Z.of_nat (length (buffer ++ [reading])))
                       (MAX_DATA_POINTS s)) as [Hfull | Hroom]; [| lia].
  rewrite <- (Z2Nat.id (MAX_DATA_POINTS s)) at 1 by lia.
  rewrite slice_from_last_length by lia. lia.
Qed.

(** With a capacity of zero nothing is ever dropped: [l[-0:]] is [l]. *)
Lemma accept_zero_capacity (reading : SensorReading.t)
    (buffer : list SensorReading.t) :
  MAX_DATA_POINTS s = 0 ->
  accept s reading buffer = buffer ++ [reading].
Proof.
  intros Hzero. unfold accept. rewrite Hzero.
  destruct (_ >? 0); [apply slice_from_0 | reflexivity].
Qed.

(** The stored readings after a run of [add_sensor_data] calls while
    recording: each call stores its reading, and the flag stays on. *)
Lemma ingest_all_stored (calls : list (Q * SensorReading.t))
    (self : DataManager.t) :
  DataManager.recording self = true ->
  DataManager.sensor_data (ingest_all s send_text calls self)
  = fold_left (fun buffer call => accept s (snd call) buffer) calls
              (DataManager.sensor_data self)
  /\ DataManager.recording (ingest_all s send_text calls self) = true.
Proof.
  revert self. induction calls as [| [current_time reading] calls IH];
    intros self Hrec; simpl.
  - split; [reflexivity | exact Hrec].
  - pose proof (add_sensor_data_stored s send_text current_time reading self)
      as [Hdata Hflag].
    destruct (DataManager.add_sensor_data s send_text current_time reading self)
      as [[result self1] sent].
    simpl in Hdata, Hflag. rewrite Hrec in Hdata, Hflag.
    destruct (IH self1 Hflag) as [IHdata IHflag].
    rewrite IHdata, Hdata. split; [reflexivity | exact IHflag].
Qed.

(** Strict FIFO: the buffer is the end of the sequence of readings. *)
Lemma stored_fifo (calls : list (Q * SensorReading.t))
    (buffer : list SensorReading.t) :
  1 <= MAX_DATA_POINTS s ->
  Z.of_nat (length buffer) <= MAX_DATA_POINTS s ->
  fold_left (fun buffer call => accept s (snd call) buffer) calls buffer
  = drop (length (buffer ++ map snd calls) - Z.to_nat (MAX_DATA_POINTS s))
         (buffer ++ map snd calls).
Proof.
  intros Hcap. revert buffer.
  induction calls as [| [current_time reading] calls IH]; intros buffer Hfit;
    simpl.
  - rewrite app_nil_r.
    replace (length buffer - Z.to_nat (MAX_DATA_POINTS s))%nat with 0%nat
      by lia.
    reflexivity.
  - rewrite IH by (apply accept_bounded; exact Hcap).
    rewrite (accept_fifo reading buffer Hcap Hfit).
    set (k := (length buffer + 1 - Z.to_nat (MAX_DATA_POINTS s))%nat).
    assert (k <= length (buffer ++ [reading]))%nat as Hk
      by (rewrite length_app; simpl; lia).
    rewrite <- (drop_app_le (buffer ++ [reading]) (map snd calls) k Hk).
    rewrite <- app_assoc. simpl.
    rewrite drop_drop. f_equal.
    rewrite length_drop, !length_app. simpl. unfold k. lia.
Qed.
End Buffer.

(** For a capacity of at least one: after any run of [add_sensor_data] calls
    on a recording data manager whose buffer was within the capacity, the
    buffer is within the capacity and holds the most recent readings, oldest
    first. *)
Lemma recording_buffer_bounded_fifo
    (s : Settings) (send_text : WebSocket -> message -> bool)
    (calls : list (Q * SensorReading.t)) (self : DataManager.t) :
  1 <= MAX_DATA_POINTS s ->
  DataManager.recording self = true ->
  Z.of_nat (length (DataManager.sensor_data self)) <= MAX_DATA_POINTS s ->
  let readings := DataManager.sensor_data self ++ map snd calls in
  let self' := ingest_all s send_text calls self in
  Z.of_nat (length (DataManager.sensor_data self')) <= MAX_DATA_POINTS s
  /\ DataManager.sensor_data self'
     = drop (length readings - Z.to_nat (MAX_DATA_POINTS s)) readings.
Proof.
  intros Hcap Hrec Hfit readings self'.
  assert (DataManager.sensor_data self'
          = drop (length readings - Z.to_nat (MAX_DATA_POINTS s)) readings)
    as Hfifo.
  { unfold self', readings.
    destruct (ingest_all_stored s send_text calls self Hrec) as [-> _].
    apply stored_fifo; assumption. }
  split; [| exact Hfifo].
  rewrite Hfifo, length_drop. lia.
Qed.

Lemma recording_buffer_bounded_fifo_witness :
  Z.of_nat (length (DataManager.sensor_data
                      (ingest_all (with_capacity 3) all_delivered
                         [reading_at 1; reading_at 2; reading_at 3;
                          reading_at 4]
                         recording_manager)))
  <= 3
  /\ DataManager.sensor_data
       (ingest_all (with_capacity 3) all_delivered
          [reading_at 1; reading_at 2; reading_at 3; reading_at 4]
          recording_manager)
     = map snd [reading_at 2; reading_at 3; reading_at 4].
Proof.
  apply (recording_buffer_bounded_fifo (with_capacity 3) all_delivered
           [reading_at 1; reading_at 2; reading_at 3; reading_at 4]
           recording_manager).
  - simpl. lia.
  - reflexivity.
  - simpl. lia.
Defined.

(** The scenario of the specification: capacity 3, readings with the
    timestamps 1, 2, 3, 4 while recording. *)
Lemma fifo_scenario :
  map SensorReading.timestamp
    (DataManager.sensor_data
       (ingest_all (with_capacity 3) all_delivered
          [reading_at 1; reading_at 2; reading_at 3; reading_at 4]
          recording_manager))
  = [2; 3; 4]%Q.
Proof. vm_compute. reflexivity. Qed.

(** C2, at a capacity of zero: the buffer of a recording data manager keeps
    every reading, so after one reading its length, 1, exceeds
    [MAX_DATA_POINTS], 0, and after four readings it holds all four. *)
Theorem zero_capacity_keeps_every_reading :
  MAX_DATA_POINTS (with_capacity 0) = 0
  /\ DataManager.recording recording_manager = true
  /\ DataManager.sensor_data recording_manager = []
  /\ map SensorReading.timestamp
       (DataManager.sensor_data
          (ingest_all (with_capacity 0) all_delivered [reading_at 1]
                      recording_manager))
     = [1%Q]
  /\ Z.of_nat
       (length (DataManager.sensor_data
                  (ingest_all (with_capacity 0) all_delivered [reading_at 1]
                              recording_manager)))
     > MAX_DATA_POINTS (with_capacity 0)
  /\ map SensorReading.timestamp
       (DataManager.sensor_data
          (ingest_all (with_capacity 0) all_delivered
             [reading_at 1; reading_at 2; reading_at 3; reading_at 4]
             recording_manager))
     = [1; 2; 3; 4]%Q.
Proof. vm_compute. repeat split. Qed.

(** ** The data summary *)

Lemma SensorType_value_inj (k1 k2 : SensorType) :
  SensorType_value k1 = SensorType_value k2 -> k1 = k2.
Proof. destruct k1, k2; simpl; intros Heq; congruence. Qed.

Lemma count_readings_cons (k : SensorType) (reading : SensorReading.t)
    (readings : list SensorReading.t) :
  count_readings k (reading :: readings)
  = ((if decide (SensorReading.sensor_type reading = k) then 1 else 0)
     + count_readings k readings)%nat.
Proof.
  unfold count_readings. simpl.
  destruct (decide (SensorReading.sensor_type reading = k)) as [Heq | Hne].
  - rewrite bool_decide_eq_true_2 by exact Heq. reflexivity.
  - rewrite bool_decide_eq_false_2 by exact Hne. reflexivity.
Qed.

(** The counting loop adds, under the key of each sensor type, the number
    of readings of that type; a type without readings gets no key. *)
Lemma count_by_type_lookup (k : SensorType)
    (readings : list SensorReading.t) (sensor_counts : gmap string Z) :
  DataManager.count_by_type readings sensor_counts !! SensorType_value k
  = if decide (count_readings k readings = 0%nat)
    then sensor_counts !! SensorType_value k
    else Some (default 0 (sensor_counts !! SensorType_value k)
               + Z.of_nat (count_readings k readings)).
Proof.
  revert sensor_counts.
  induction readings as [| reading readings IH]; intros sensor_counts.
  - reflexivity.
  - cbn [DataManager.count_by_type]. rewrite IH, count_readings_cons.
    destruct (decide (SensorReading.sensor_type reading = k)) as [-> | Hne].
    + rewrite lookup_insert_eq. cbn [default].
      destruct (decide (count_readings k readings = 0%nat)) as [Hzero | Hmore].
      * rewrite decide_False by lia. rewrite Hzero. reflexivity.
      * rewrite decide_False by lia. f_equal. unfold id. lia.
    + rewrite lookup_insert_ne
        by (intros Heq; apply Hne, SensorType_value_inj, Heq).
      reflexivity.
Qed.

(** No other key is ever written. *)
Lemma count_by_type_other (key : string)
    (readings : list SensorReading.t) (sensor_counts : gmap string Z) :
  (forall k, key <> SensorType_value k) ->
  DataManager.count_by_type readings sensor_counts !! key
  = sensor_counts !! key.
Proof.
  intros Hother. revert sensor_counts.
  induction readings as [| reading readings IH]; intros sensor_counts.
  - reflexivity.
  - cbn [DataManager.count_by_type]. rewrite IH.
    apply lookup_insert_ne. intros Heq. apply (Hother _ (eq_sym Heq)).
Qed.

Lemma index_0_head {A : Type} (l : list A) : index l 0 = head l.
Proof. unfold index. simpl. destruct l; reflexivity. Qed.

Lemma index_minus_1_last {A : Type} (l : list A) :
  index l (-1) = list.last l.
Proof.
  unfold index. rewrite last_lookup.
  destruct l as [| x l]; [reflexivity |].
  change (-1 <? 0) with true. cbv iota.
  pose proof (Nat2Z.is_nonneg (length l)) as Hlen.
  cbn [length]. rewrite Nat2Z.inj_succ.
  destruct (Z.ltb_spec (-1 + Z.succ (Z.of_nat (length l))) 0) as [Hneg | _].
  - lia.
  - f_equal. lia.
Qed.

(** C9, as the code has it: with no reading stored the summary is the single
    message "No data recorded"; with at least one reading stored it gives
    the number of readings, the number of readings per sensor type (no key
    for a type without readings, no other key), the number of alerts, the
    recording flag, the number of clients, and as duration the timestamp of
    the last reading minus that of the first one, or [None] when exactly one
    reading is stored. *)
Theorem summary_of_stored_readings (self : DataManager.t) :
  (DataManager.sensor_data self = [] ->
   DataManager.get_data_summary self = summary_message "No data recorded")
  /\ (DataManager.sensor_data self <> [] ->
      exists stats,
        DataManager.get_data_summary self = summary_full stats
        /\ total_readings stats
           = Z.of_nat (length (DataManager.sensor_data self))
        /\ (forall k,
              sensor_breakdown stats !! SensorType_value k
              = if decide (count_readings k (DataManager.sensor_data self)
                           = 0%nat)
                then None
                else Some (Z.of_nat
                             (count_readings k (DataManager.sensor_data self))))
        /\ (forall key,
              (forall k, key <> SensorType_value k) ->
              sensor_breakdown stats !! key = None)
        /\ (length (DataManager.sensor_data self) = 1%nat ->
            session_duration_seconds stats = None)
        /\ (forall first latest,
              (2 <= length (DataManager.sensor_data self))%nat ->
              head (DataManager.sensor_data self) = Some first ->
              list.last (DataManager.sensor_data self) = Some latest ->
              session_duration_seconds stats
              = Some (float_sub (SensorReading.timestamp latest)
                                (SensorReading.timestamp first)))
        /\ validation_alerts stats
           = Z.of_nat (length (DataManager.validation_results self))
        /\ recording_active stats = DataManager.recording self
        /\ connected_clients stats
           = Z.of_nat (length (DataManager.websocket_connections self))).
Proof.
  unfold DataManager.get_data_summary. split.
  - intros ->. reflexivity.
  - intros Hstored.
    destruct (DataManager.sensor_data self) as [| reading readings] eqn:Hdata;
      [congruence |].
    eexists. split; [reflexivity |].
    cbn [total_readings sensor_breakdown validation_alerts
         session_duration_seconds recording_active connected_clients].
    split; [reflexivity |]. split; [| split; [| split; [| split]]].
    + intros k. rewrite count_by_type_lookup, lookup_empty. cbn [default].
      destruct (decide _); [reflexivity |]. f_equal.
    + intros key Hother. rewrite count_by_type_other by exact Hother.
      apply lookup_empty.
    + intros Hone.
      destruct (Nat.ltb_spec 1 (length (reading :: readings))) as [? | _];
        [lia | reflexivity].
    + intros first latest Htwo Hfirst Hlast.
      destruct (Nat.ltb_spec 1 (length (reading :: readings))) as [_ | ?];
        [| lia].
      rewrite index_0_head, index_minus_1_last, Hfirst, Hlast.
      reflexivity.
    + repeat split.
Qed.

Lemma summary_of_stored_readings_witness :
  exists stats,
    DataManager.get_data_summary three_readings = summary_full stats
    /\ total_readings stats = 3
    /\ sensor_breakdown stats !! "force" = Some 2
    /\ sensor_breakdown stats !! "motor" = Some 1
    /\ sensor_breakdown stats !! "camera" = None
    /\ session_duration_seconds stats = Some (float_sub 17 10).
Proof.
  destruct (proj2 (summary_of_stored_readings three_readings))
    as (stats & Hsummary & Htotal & Hbreakdown & _ & _ & Hspan & _).
  { discriminate. }
  exists stats. split; [exact Hsummary |]. split; [exact Htotal |].
  split; [exact (Hbreakdown FORCE) |]. split; [exact (Hbreakdown MOTOR) |].
  split; [exact (Hbreakdown CAMERA) |].
  apply (Hspan (force_reading 10 15) (force_reading 17 16)).
  - simpl. lia.
  - reflexivity.
  - reflexivity.
Defined.

(** With an empty buffer the summary has no count, no breakdown and no
    duration: it is the dict [{"message": "No data recorded"}]. *)
Lemma empty_summary_is_a_message :
  DataManager.sensor_data DataManager.__init__ = []
  /\ DataManager.get_data_summary DataManager.__init__
     = summary_message "No data recorded"
  /\ (forall stats,
        DataManager.get_data_summary DataManager.__init__
        <> summary_full stats).
Proof.
  split; [reflexivity |]. split; [reflexivity |].
  intros stats Heq. discriminate Heq.
Qed.

(** * Further properties of the code *)

(** ** The motor rule *)

Lemma Qabs_opp_eq (x : Q) : Qabs (- x) = Qabs x.
Proof. destruct x as [n d]. unfold Qabs, Qopp. simpl. rewrite Z.abs_opp. reflexivity. Qed.

(** X2: a MOTOR reading whose absolute value is above [MOTOR_THRESHOLD] is
    answered with a WARNING alert that carries the threshold, the value and
    its absolute value; otherwise there is no alert; the validator is left as
    it was; and a reading of the opposite value gets the same severity. *)
Theorem motor_threshold_rule
    (s : Settings) (current_time : Q) (self : DataValidator.t)
    (reading : SensorReading.t) (x : Q) :
  SensorReading.sensor_type reading = MOTOR ->
  SensorReading.value reading = VNum x ->
  ((MOTOR_THRESHOLD s < Qabs x)%Q ->
   exists a,
     DataValidator.validate_reading s current_time self reading
     = (Return (Some a), self)
     /\ ValidationResult.sensor_type a = MOTOR
     /\ ValidationResult.status a = WARNING
     /\ ValidationResult.details a !! "threshold"
        = Some (DScalar (PNum (MOTOR_THRESHOLD s)))
     /\ ValidationResult.details a !! "actual" = Some (DValue (VNum x))
     /\ ValidationResult.details a !! "absolute"
        = Some (DScalar (PNum (Qabs x))))
  /\ ((Qabs x <= MOTOR_THRESHOLD s)%Q ->
      DataValidator.validate_reading s current_time self reading
      = (Return None, self))
  /\ (forall (current_time' : Q) (self' : DataValidator.t)
             (opposite : SensorReading.t),
        SensorReading.sensor_type opposite = MOTOR ->
        SensorReading.value opposite = VNum (- x) ->
        severity (alert_of (DataValidator.validate_reading
                              s current_time' self' opposite))
        = severity (alert_of (DataValidator.validate_reading
                                s current_time self reading))).
Proof.
  intros Hkind Hvalue.
  unfold DataValidator.validate_reading, DataValidator._validate_motor_reading.
  rewrite Hkind, Hvalue. split; [| split].
  - intros Habove. apply py_gt_spec in Habove. rewrite Habove.
    eexists. split; [reflexivity |]. repeat split.
  - intros Hbelow. apply py_gt_false in Hbelow. rewrite Hbelow. reflexivity.
  - intros current_time' self' opposite Hkind' Hvalue'.
    rewrite Hkind', Hvalue', Qabs_opp_eq.
    destruct (py_gt (Qabs x) (MOTOR_THRESHOLD s)); reflexivity.
Qed.

Lemma motor_threshold_rule_witness :
  severity (alert_of (DataValidator.validate_reading
                        settings 1234567892 DataValidator.__init__
                        (motor_reading 1234567892 (-60))))
  = severity (alert_of (DataValidator.validate_reading
                          settings 1234567891 DataValidator.__init__
                          (motor_reading 1234567891 60)))
  /\ DataValidator.validate_reading
       settings 1234567890 DataValidator.__init__
       (motor_reading 1234567890 30)
     = (Return None, DataValidator.__init__).
Proof.
  split.
  - apply (proj2 (proj2 (motor_threshold_rule
                           settings 1234567891 DataValidator.__init__
                           (motor_reading 1234567891 60) 60
                           eq_refl eq_refl))
             1234567892%Q DataValidator.__init__
             (motor_reading 1234567892 (-60)) eq_refl eq_refl).
  - apply (proj1 (proj2 (motor_threshold_rule
                           settings 1234567890 DataValidator.__init__
                           (motor_reading 1234567890 30) 30
                           eq_refl eq_refl))).
    unfold Qle. simpl. lia.
Defined.

(** ** Runs of well-typed readings *)

Lemma validate_all_returns
    (s : Settings) (calls : list (Q * SensorReading.t))
    (self : DataValidator.t) :
  Forall (fun call => well_typed (snd call) = true) calls ->
  numeric_history self = true ->
  Forall (fun result => returned result = true)
         (fst (validate_all s calls self))
  /\ numeric_history (snd (validate_all s calls self)) = true.
Proof.
  intros Htyped. revert self.
  induction Htyped as [| [current_time reading] calls Hhead _ IH];
    intros self Hnum; simpl.
  - split; [constructor | exact Hnum].
  - destruct (validate_reading_returns s current_time self reading Hhead Hnum)
      as (result & self1 & Hcall & Hnum1).
    rewrite Hcall. specialize (IH self1 Hnum1).
    destruct (validate_all s calls self1) as [results self2].
    simpl in *. destruct IH as [IHres IHnum].
    split; [| exact IHnum]. constructor; [reflexivity | exact IHres].
Qed.

(** X3: on a new validator, a run of readings that all satisfy the data
    model (a number for FORCE and MOTOR, a dict with a numeric or missing
    brightness for CAMERA) never raises: every call returns an alert or
    [None], one answer per reading. *)
Theorem well_typed_runs_never_raise
    (s : Settings) (calls : list (Q * SensorReading.t)) :
  Forall (fun call => well_typed (snd call) = true) calls ->
  Forall (fun result => returned result = true)
         (fst (validate_all s calls DataValidator.__init__))
  /\ length (fst (validate_all s calls DataValidator.__init__))
     = length calls.
Proof.
  intros Htyped. split.
  - apply validate_all_returns; [exact Htyped | reflexivity].
  - clear Htyped. generalize DataValidator.__init__.
    induction calls as [| [current_time reading] calls IH]; intros self;
      simpl; [reflexivity |].
    destruct (DataValidator.validate_reading s current_time self reading)
      as [result self1].
    specialize (IH self1).
    destruct (validate_all s calls self1) as [results self2].
    simpl in *. f_equal. exact IH.
Qed.

Lemma well_typed_runs_never_raise_witness :
  Forall (fun result => returned result = true)
         (fst (validate_all settings force_scenario DataValidator.__init__))
  /\ length (fst (validate_all settings force_scenario DataValidator.__init__))
     = length force_scenario.
Proof.
  apply (well_typed_runs_never_raise settings force_scenario).
  repeat constructor.
Defined.

(** ** Edges of the force rules *)

(** X4: the spike check needs three entries.  A FORCE reading that is above
    neither threshold (the critical one, [FORCE_THRESHOLD_HIGH], and the
    warning one, the float product [FORCE_THRESHOLD_HIGH * 0.8]), validated
    while the FORCE history holds fewer than two entries (so the first two
    FORCE readings of a new validator), gets no alert, however far it is
    from the reading before it. *)
Theorem no_spike_before_third_reading
    (s : Settings) (current_time : Q) (self : DataValidator.t)
    (reading : SensorReading.t) (x : Q) :
  SensorReading.sensor_type reading = FORCE ->
  SensorReading.value reading = VNum x ->
  (x <= FORCE_THRESHOLD_HIGH s)%Q ->
  (x <= float_mul (FORCE_THRESHOLD_HIGH s) float_0_8)%Q ->
  (length (DataValidator.validation_history self FORCE) < 2)%nat ->
  fst (DataValidator.validate_reading s current_time self reading)
  = Return None.
Proof.
  intros Hkind Hvalue Hhigh Hwarn Hshort.
  apply (no_spike_no_alert s current_time self reading x
           Hkind Hvalue Hhigh Hwarn).
  left. unfold DataValidator.validate_reading. rewrite Hkind.
  rewrite force_history_lookup. cbv zeta.
  rewrite capped_length, length_app. simpl. lia.
Qed.

Lemma no_spike_before_third_reading_witness :
  fst (DataValidator.validate_reading
         settings 1234567891
         (snd (DataValidator.validate_reading
                 settings 1234567890 DataValidator.__init__
                 (force_reading 1234567890 1)))
         (force_reading 1234567891 60))
  = Return None.
Proof.
  apply (no_spike_before_third_reading
           settings 1234567891
           (snd (DataValidator.validate_reading
                   settings 1234567890 DataValidator.__init__
                   (force_reading 1234567890 1)))
           (force_reading 1234567891 60) 60 eq_refl eq_refl).
  - vm_compute. discriminate.
  - vm_compute. discriminate.
  - vm_compute. lia.
Defined.

(** X6: the "approaching limit" alert is only reached with a non-zero
    threshold, so the division that computes its percentage never raises
    ZeroDivisionError: a FORCE reading above the float product
    [FORCE_THRESHOLD_HIGH * 0.8] and not above the threshold is always
    answered, with a WARNING alert whose details hold the threshold, the
    reading's value and the percentage [(value / threshold) * 100] as the
    floats compute it. *)
Theorem warning_percentage_defined
    (s : Settings) (current_time : Q) (self : DataValidator.t)
    (reading : SensorReading.t) (x : Q) :
  SensorReading.sensor_type reading = FORCE ->
  SensorReading.value reading = VNum x ->
  (float_mul (FORCE_THRESHOLD_HIGH s) float_0_8 < x)%Q ->
  (x <= FORCE_THRESHOLD_HIGH s)%Q ->
  ~ (FORCE_THRESHOLD_HIGH s == 0)%Q
  /\ float_div x (FORCE_THRESHOLD_HIGH s)
     = Return (round64 (x / FORCE_THRESHOLD_HIGH s))
  /\ exists a,
       fst (DataValidator.validate_reading s current_time self reading)
       = Return (Some a)
       /\ ValidationResult.status a = WARNING
       /\ ValidationResult.details a !! "threshold"
          = Some (DScalar (PNum (FORCE_THRESHOLD_HIGH s)))
       /\ ValidationResult.details a !! "actual" = Some (DValue (VNum x))
       /\ ValidationResult.details a !! "percentage"
          = Some (DScalar (PNum
               (float_mul (round64 (x / FORCE_THRESHOLD_HIGH s)) 100))).
Proof.
  intros Hkind Hvalue Hlow Hhigh.
  assert (~ (FORCE_THRESHOLD_HIGH s == 0)%Q) as Hnonzero.
  { intros Hzero. rewrite (float_mul_0_l _ _ Hzero) in Hlow. lra. }
  assert (float_div x (FORCE_THRESHOLD_HIGH s)
          = Return (round64 (x / FORCE_THRESHOLD_HIGH s))) as Hratio.
  { unfold float_div.
    destruct (Qeq_bool (FORCE_THRESHOLD_HIGH s) 0) eqn:Hzero;
      [| reflexivity].
    apply Qeq_bool_iff in Hzero. contradiction. }
  split; [exact Hnonzero |]. split; [exact Hratio |].
  apply py_gt_false in Hhigh. apply py_gt_spec in Hlow.
  unfold DataValidator.validate_reading, DataValidator._validate_force_reading.
  rewrite Hkind, Hvalue, Hhigh, Hlow, Hratio. cbv zeta.
  eexists. repeat split.
Qed.

Lemma warning_percentage_defined_witness :
  exists a,
    fst (DataValidator.validate_reading
           settings 1234567891 DataValidator.__init__
           (force_reading 1234567891 70))
    = Return (Some a)
    /\ ValidationResult.status a = WARNING
    /\ ValidationResult.details a !! "percentage"
       = Some (DScalar (PNum (175 # 2))).
Proof.
  destruct (warning_percentage_defined
              settings 1234567891 DataValidator.__init__
              (force_reading 1234567891 70) 70 eq_refl eq_refl)
    as (_ & _ & a & Hanswer & Hstatus & _ & _ & Hpercentage).
  - vm_compute. reflexivity.
  - vm_compute. discriminate.
  - exists a. split; [exact Hanswer |]. split; [exact Hstatus |].
    rewrite Hpercentage. vm_compute. reflexivity.
Defined.

(** ** The validation statistics *)

Lemma sum_of_lengths_eq (self : DataValidator.t) :
  DataValidator.sum_of_lengths self
  = Z.of_nat (length (DataValidator.validation_history self FORCE))
    + Z.of_nat (length (DataValidator.validation_history self MOTOR))
    + Z.of_nat (length (DataValidator.validation_history self CAMERA)).
Proof. unfold DataValidator.sum_of_lengths. simpl. lia. Qed.

(** X5: after any run of [validate_reading] calls on a new validator, the
    statistics count FORCE readings only, and at most 50 of them: the FORCE
    count is the smaller of 50 and the number of FORCE readings validated,
    the MOTOR and CAMERA counts are 0, and the total equals the FORCE
    count. *)
Theorem validation_stats_count_force_only
    (s : Settings) (calls : list (Q * SensorReading.t)) :
  let stats :=
    DataValidator.get_validation_stats
      (snd (validate_all s calls DataValidator.__init__)) in
  DataValidator.force_readings_analyzed stats
  = Z.of_nat (Nat.min 50 (count_type FORCE calls))
  /\ DataValidator.motor_readings_analyzed stats = 0
  /\ DataValidator.camera_readings_analyzed stats = 0
  /\ DataValidator.total_validations_performed stats
     = DataValidator.force_readings_analyzed stats
  /\ DataValidator.total_validations_performed stats <= 50.
Proof.
  cbv zeta.
  pose proof (validate_all_histories s calls DataValidator.__init__)
    as (Hm & Hc & Hf).
  cbv zeta in Hm, Hc, Hf.
  change (DataValidator.validation_history DataValidator.__init__ MOTOR)
    with (@nil HistoryEntry.t) in Hm.
  change (DataValidator.validation_history DataValidator.__init__ CAMERA)
    with (@nil HistoryEntry.t) in Hc.
  change (DataValidator.validation_history DataValidator.__init__ FORCE)
    with (@nil HistoryEntry.t) in Hf.
  assert (length (DataValidator.validation_history
                    (snd (validate_all s calls DataValidator.__init__)) FORCE)
          = Nat.min 50 (count_type FORCE calls)) as Hlen.
  { rewrite Hf. simpl. case_decide; lia. }
  unfold DataValidator.get_validation_stats.
  cbn [DataValidator.force_readings_analyzed
       DataValidator.motor_readings_analyzed
       DataValidator.camera_readings_analyzed
       DataValidator.total_validations_performed].
  rewrite sum_of_lengths_eq, Hm, Hc, Hlen. simpl length.
  repeat split; lia.
Qed.

(** ** Broadcasting again, and the life of a connection *)

Lemma accepting_sublist (send_text : WebSocket -> message -> bool)
    (message : message) (connections : list WebSocket) :
  sublist (accepting send_text message connections) connections.
Proof.
  unfold accepting.
  induction connections as [| websocket rest IH]; simpl.
  - constructor.
  - destruct (send_text websocket message); constructor; exact IH.
Qed.

Lemma accepting_idempotent (send_text : WebSocket -> message -> bool)
    (message : message) (connections : list WebSocket) :
  accepting send_text message (accepting send_text message connections)
  = accepting send_text message connections.
Proof.
  unfold accepting.
  induction connections as [| websocket rest IH]; simpl; [reflexivity |].
  destruct (send_text websocket message) eqn:Hsend; simpl.
  - rewrite Hsend, IH. reflexivity.
  - exact IH.
Qed.

(** X7: a broadcast never adds or reorders connections (the list after it
    is a sublist of the list before), makes one delivery for each connection
    it keeps, and has cleaned the list: broadcasting the same message again,
    while the same sinks fail, reaches every connection left and changes
    nothing. *)
Theorem broadcast_again_reaches_everyone
    (send_text : WebSocket -> message -> bool) (message : message)
    (self : DataManager.t) :
  let self' := fst (DataManager._broadcast_message send_text message self) in
  let sent := snd (DataManager._broadcast_message send_text message self) in
  sublist (DataManager.websocket_connections self')
          (DataManager.websocket_connections self)
  /\ map fst sent = DataManager.websocket_connections self'
  /\ DataManager._broadcast_message send_text message self'
     = (self',
        map (fun websocket => (websocket, message))
            (DataManager.websocket_connections self')).
Proof.
  cbv zeta. rewrite !broadcast_message_spec.
  destruct self as [data results connections rec start validator].
  cbn [fst snd DataManager.websocket_connections
       DataManager.set_websocket_connections].
  split; [apply accepting_sublist |]. split.
  - unfold deliveries. rewrite map_map. simpl. apply map_id.
  - unfold deliveries. rewrite accepting_idempotent. reflexivity.
Qed.

(** X8: registering an observer that is not registered and then
    unregistering it gives back the data manager as it was; and one
    unregistration takes away one registration of that observer (none if
    there is none) and none of any other observer. *)
Theorem register_unregister_round_trip
    (websocket : WebSocket) (self : DataManager.t) :
  (~ In websocket (DataManager.websocket_connections self) ->
   DataManager.remove_websocket_connection websocket
     (DataManager.add_websocket_connection websocket self)
   = self)
  /\ (forall other : WebSocket,
        registrations other
          (DataManager.websocket_connections
             (DataManager.remove_websocket_connection websocket self))
        = if decide (other = websocket)
          then Nat.pred (registrations websocket
                           (DataManager.websocket_connections self))
          else registrations other (DataManager.websocket_connections self)).
Proof.
  destruct self as [data results connections rec start validator]. split.
  - cbn [DataManager.websocket_connections]. intros Hnot.
    unfold DataManager.remove_websocket_connection,
      DataManager.add_websocket_connection.
    cbn [DataManager.websocket_connections
         DataManager.set_websocket_connections DataManager.sensor_data
         DataManager.validation_results DataManager.recording
         DataManager.session_start_time DataManager.validator].
    destruct (decide (websocket ∈ connections ++ [websocket])) as [_ | Hout].
    + rewrite (remove_first websocket connections [] Hnot), app_nil_r.
      reflexivity.
    + exfalso. apply Hout. apply list_elem_of_In, in_or_app.
      right. left. reflexivity.
  - intros other. unfold DataManager.remove_websocket_connection.
    cbn [DataManager.websocket_connections].
    destruct (decide (websocket ∈ connections)) as [Hin | Hout].
    + cbn [DataManager.websocket_connections
           DataManager.set_websocket_connections].
      apply remove_registrations.
    + cbn [DataManager.websocket_connections].
      destruct (decide (other = websocket)) as [-> | Hother]; [| reflexivity].
      assert (registrations websocket connections = 0%nat) as ->.
      { apply count_occ_not_In. intros Hin. apply Hout, list_elem_of_In, Hin. }
      reflexivity.
Qed.

Lemma register_unregister_round_trip_witness :
  DataManager.remove_websocket_connection 4%nat
    (DataManager.add_websocket_connection 4%nat three_clients)
  = three_clients.
Proof.
  apply (proj1 (register_unregister_round_trip 4%nat three_clients)).
  simpl. intros [H | [H | [H | []]]]; discriminate H.
Defined.

(** ** Runs of [add_sensor_data] *)

Lemma ingest_all_cons
    (s : Settings) (send_text : WebSocket -> message -> bool)
    (current_time : Q) (reading : SensorReading.t)
    (calls : list (Q * SensorReading.t)) (self : DataManager.t) :
  ingest_all s send_text ((current_time, reading) :: calls) self
  = ingest_all s send_text calls
      (snd (fst (DataManager.add_sensor_data s send_text current_time reading
                                             self))).
Proof.
  simpl.
  destruct (DataManager.add_sensor_data s send_text current_time reading self)
    as [[result self1] sent].
  reflexivity.
Qed.

(** One call, field by field, whatever validation answers. *)
Lemma add_sensor_data_fields
    (s : Settings) (send_text : WebSocket -> message -> bool)
    (current_time : Q) (reading : SensorReading.t) (self : DataManager.t) :
  let self' :=
    snd (fst (DataManager.add_sensor_data s send_text current_time reading
                                          self)) in
  let answer :=
    DataValidator.validate_reading s current_time (DataManager.validator self)
                                   reading in
  DataManager.validation_results self'
  = DataManager.validation_results self ++ alerts_of [fst answer]
  /\ DataManager.validator self' = snd answer
  /\ DataManager.recording self' = DataManager.recording self
  /\ DataManager.session_start_time self' = DataManager.session_start_time self
  /\ (DataManager.recording self = false ->
      DataManager.sensor_data self' = DataManager.sensor_data self).
Proof.
  cbv zeta.
  destruct (DataValidator.validate_reading
              s current_time (DataManager.validator self) reading)
    as [[validation_result | e] validator'] eqn:Hvalid.
  - rewrite (add_sensor_data_returns s send_text current_time reading self
               _ _ Hvalid).
    cbn [fst snd DataManager.validation_results DataManager.validator
         DataManager.recording DataManager.session_start_time
         DataManager.sensor_data alerts_of].
    repeat split.
    + destruct validation_result; [reflexivity |].
      rewrite app_nil_r. reflexivity.
    + intros ->. reflexivity.
  - rewrite (add_sensor_data_raises s send_text current_time reading self
               _ _ Hvalid).
    cbn [fst snd DataManager.validation_results DataManager.validator
         DataManager.recording DataManager.session_start_time
         DataManager.sensor_data alerts_of].
    repeat split.
    + rewrite app_nil_r. reflexivity.
    + intros ->. reflexivity.
Qed.

Lemma validate_all_cons
    (s : Settings) (current_time : Q) (reading : SensorReading.t)
    (calls : list (Q * SensorReading.t)) (self : DataValidator.t) :
  validate_all s ((current_time, reading) :: calls) self
  = (fst (DataValidator.validate_reading s current_time self reading)
       :: fst (validate_all s calls
                 (snd (DataValidator.validate_reading s current_time self
                                                      reading))),
     snd (validate_all s calls
            (snd (DataValidator.validate_reading s current_time self reading)))).
Proof.
  simpl.
  destruct (DataValidator.validate_reading s current_time self reading)
    as [result self1].
  simpl. destruct (validate_all s calls self1) as [results self2].
  reflexivity.
Qed.

Lemma alerts_of_cons (result : outcome (option ValidationResult.t))
    (results : list (outcome (option ValidationResult.t))) :
  alerts_of (result :: results) = alerts_of [result] ++ alerts_of results.
Proof. destruct result as [[alert |] | e]; reflexivity. Qed.

(** X9: the alert log follows the validator, not the session.  After any
    run of [add_sensor_data] calls, recording or not, connected clients or
    not, raising calls included, the validation results are the ones there
    were followed by every alert the validator has answered, in order, none
    evicted; the validator is the one those validation calls leave; and the
    recording flag and the session start time are untouched. *)
Theorem alert_log_follows_validation
    (s : Settings) (send_text : WebSocket -> message -> bool)
    (calls : list (Q * SensorReading.t)) (self : DataManager.t) :
  let self' := ingest_all s send_text calls self in
  let answers := validate_all s calls (DataManager.validator self) in
  DataManager.validation_results self'
  = DataManager.validation_results self ++ alerts_of (fst answers)
  /\ DataManager.validator self' = snd answers
  /\ DataManager.recording self' = DataManager.recording self
  /\ DataManager.session_start_time self' = DataManager.session_start_time self.
Proof.
  cbv zeta. revert self.
  induction calls as [| [current_time reading] calls IH]; intros self.
  - simpl. rewrite app_nil_r. repeat split.
  - rewrite ingest_all_cons, validate_all_cons. cbn [fst snd].
    rewrite alerts_of_cons.
    pose proof (add_sensor_data_fields s send_text current_time reading self)
      as (Hresults & Hvalidator & Hrec & Hstart & _).
    cbv zeta in Hresults, Hvalidator, Hrec, Hstart.
    destruct (IH (snd (fst (DataManager.add_sensor_data
                              s send_text current_time reading self))))
      as (IHresults & IHvalidator & IHrec & IHstart).
    rewrite IHresults, IHvalidator, IHrec, IHstart.
    rewrite Hresults, Hvalidator, Hrec, Hstart.
    rewrite <- app_assoc. repeat split.
Qed.

(** X10: while the data manager is not recording, no run of
    [add_sensor_data] calls stores anything: the stored readings stay what
    they were, whatever the readings and whatever validation answers. *)
Theorem idle_runs_store_nothing
    (s : Settings) (send_text : WebSocket -> message -> bool)
    (calls : list (Q * SensorReading.t)) (self : DataManager.t) :
  DataManager.recording self = false ->
  DataManager.sensor_data (ingest_all s send_text calls self)
  = DataManager.sensor_data self
  /\ DataManager.recording (ingest_all s send_text calls self) = false.
Proof.
  revert self.
  induction calls as [| [current_time reading] calls IH]; intros self Hidle.
  - split; [reflexivity | exact Hidle].
  - rewrite ingest_all_cons.
    pose proof (add_sensor_data_fields s send_text current_time reading self)
      as (_ & _ & Hrec & _ & Hdata).
    cbv zeta in Hrec, Hdata. rewrite Hidle in Hrec.
    destruct (IH _ Hrec) as [IHdata IHrec].
    rewrite IHdata, IHrec, (Hdata Hidle). split; reflexivity.
Qed.

Lemma idle_runs_store_nothing_witness :
  DataManager.sensor_data
    (ingest_all settings all_delivered force_scenario three_readings)
  = DataManager.sensor_data three_readings
  /\ DataManager.recording
       (ingest_all settings all_delivered force_scenario three_readings)
     = false.
Proof.
  apply (idle_runs_store_nothing settings all_delivered force_scenario
           three_readings).
  reflexivity.
Defined.

(** ** Readings that break the data model *)

(** X11: a FORCE or MOTOR reading that carries a dict makes validation
    raise [TypeError], a CAMERA reading that carries a number makes it raise
    [AttributeError]; and whenever validation raises, [add_sensor_data]
    raises the same exception after having stored the reading (if recording)
    and before any broadcast: no alert is recorded, no client is sent
    anything, and the connections are as they were. *)
Theorem mistyped_reading_raises_before_broadcast
    (s : Settings) (send_text : WebSocket -> message -> bool)
    (current_time : Q) (reading : SensorReading.t) (self : DataManager.t) :
  (forall d,
     SensorReading.value reading = VDict d ->
     SensorReading.sensor_type reading <> CAMERA ->
     fst (DataValidator.validate_reading
            s current_time (DataManager.validator self) reading)
     = Raise TypeError)
  /\ (forall x,
        SensorReading.value reading = VNum x ->
        SensorReading.sensor_type reading = CAMERA ->
        fst (DataValidator.validate_reading
               s current_time (DataManager.validator self) reading)
        = Raise AttributeError)
  /\ (forall e,
        fst (DataValidator.validate_reading
               s current_time (DataManager.validator self) reading)
        = Raise e ->
        DataManager.add_sensor_data s send_text current_time reading self
        = (Raise e,
           {| DataManager.sensor_data :=
                if DataManager.recording self
                then accept s reading (DataManager.sensor_data self)
                else DataManager.sensor_data self;
              DataManager.validation_results :=
                DataManager.validation_results self;
              DataManager.websocket_connections :=
                DataManager.websocket_connections self;
              DataManager.recording := DataManager.recording self;
              DataManager.session_start_time :=
                DataManager.session_start_time self;
              DataManager.validator :=
                snd (DataValidator.validate_reading
                       s current_time (DataManager.validator self) reading) |},
           [])).
Proof.
  split; [| split].
  - intros d Hvalue Hkind. unfold DataValidator.validate_reading.
    destruct (SensorReading.sensor_type reading); [| | congruence].
    + unfold DataValidator._validate_force_reading. rewrite Hvalue.
      reflexivity.
    + unfold DataValidator._validate_motor_reading. rewrite Hvalue.
      reflexivity.
  - intros x Hvalue Hkind. unfold DataValidator.validate_reading.
    rewrite Hkind. unfold DataValidator._validate_camera_reading.
    rewrite Hvalue. reflexivity.
  - intros e Hraise.
    destruct (DataValidator.validate_reading
                s current_time (DataManager.validator self) reading)
      as [result validator'] eqn:Hvalid.
    simpl in Hraise. subst result.
    apply (add_sensor_data_raises s send_text current_time reading self
             e validator' Hvalid).
Qed.

Lemma mistyped_reading_raises_before_broadcast_witness :
  fst (DataValidator.validate_reading
         settings 1234567890 (DataManager.validator three_clients)
         mistyped_force_reading)
  = Raise TypeError.
Proof.
  apply (proj1 (mistyped_reading_raises_before_broadcast
                  settings second_closed 1234567890 mistyped_force_reading
                  three_clients) ∅).
  - reflexivity.
  - discriminate.
Defined.

(** ** The session routes when they succeed *)

(** X12: with the system initialised and no session recording,
    [start_session] answers "recording" with 0 data points; it turns the
    recording flag on, empties the readings and the alerts, sets the session
    start to the loop time, starts the sensors, and sends one system_status
    message (recording, 0 data points) to every connection that accepts it,
    dropping the others.  The validator, with its FORCE history, is not
    reset. *)
Theorem start_session_opens_a_session
    (send_text : WebSocket -> message -> bool) (session_id : string)
    (now now' : Q) (ev : events)
    (dm : DataManager.t) (sm : SensorManager.t) :
  data_manager ev = Some dm ->
  sensor_manager ev = Some sm ->
  DataManager.recording dm = false ->
  let status :=
    system_status_message
      true (float_sub now' (DataManager.or_0 (Some now))) 0 in
  start_session send_text session_id now now' ev
  = (Return {| sr_session_id := session_id;
               sr_status := "recording";
               sr_data_points := 0 |},
     {| sensor_manager := Some (SensorManager.start_all sm);
        data_manager :=
          Some {| DataManager.sensor_data := [];
                  DataManager.validation_results := [];
                  DataManager.websocket_connections :=
                    accepting send_text status
                              (DataManager.websocket_connections dm);
                  DataManager.recording := true;
                  DataManager.session_start_time := Some now;
                  DataManager.validator := DataManager.validator dm |} |},
     deliveries send_text status (DataManager.websocket_connections dm))
  /\ SensorManager.running (SensorManager.start_all sm) = true
  /\ (forall k flag,
        SensorManager.simulators (SensorManager.start_all sm) !! k = Some flag ->
        flag = true).
Proof.
  intros Hdm Hsm Hidle status. split; [| split].
  - unfold start_session. rewrite Hdm, Hsm, Hidle.
    unfold DataManager.start_recording, DataManager._broadcast_system_status.
    rewrite broadcast_message_spec.
    destruct dm as [data results connections rec start validator].
    reflexivity.
  - reflexivity.
  - intros k flag. unfold SensorManager.start_all.
    cbn [SensorManager.simulators]. rewrite lookup_fmap.
    destruct (SensorManager.simulators sm !! k); simpl; congruence.
Qed.

Lemma start_session_opens_a_session_witness :
  DataManager.recording <$>
    data_manager
      (snd (fst (start_session second_closed "5f0c" 10 11 started_up)))
  = Some true
  /\ fst (fst (start_session second_closed "5f0c" 10 11 started_up))
     = Return {| sr_session_id := "5f0c";
                 sr_status := "recording";
                 sr_data_points := 0 |}.
Proof.
  destruct (start_session_opens_a_session
              second_closed "5f0c" 10 11 started_up
              DataManager.__init__ SensorManager.__init__
              eq_refl eq_refl eq_refl) as [Hstart _].
  rewrite Hstart. split; reflexivity.
Defined.

(** X13: with the system initialised and a session recording,
    [stop_session] turns the recording flag off and stops the sensors but
    keeps the readings, the alerts and the session start; it reports the
    number of readings and of alerts stored, and as duration the loop time
    minus the session start.  A session start that is missing or equal to
    0 counts as no start: the duration is then [None].  One system_status
    message (not recording) goes to every connection that accepts it. *)
Theorem stop_session_closes_the_session
    (send_text : WebSocket -> message -> bool) (session_id : string)
    (now now' : Q) (ev : events)
    (dm : DataManager.t) (sm : SensorManager.t) :
  data_manager ev = Some dm ->
  sensor_manager ev = Some sm ->
  DataManager.recording dm = true ->
  let status :=
    system_status_message
      false
      (float_sub now' (DataManager.or_0 (DataManager.session_start_time dm)))
      (Z.of_nat (length (DataManager.sensor_data dm))) in
  let dm' :=
    {| DataManager.sensor_data := DataManager.sensor_data dm;
       DataManager.validation_results := DataManager.validation_results dm;
       DataManager.websocket_connections :=
         accepting send_text status (DataManager.websocket_connections dm);
       DataManager.recording := false;
       DataManager.session_start_time := DataManager.session_start_time dm;
       DataManager.validator := DataManager.validator dm |} in
  exists summary,
    stop_session send_text session_id now now' ev
    = (Return summary,
       {| sensor_manager := Some (SensorManager.stop_all sm);
          data_manager := Some dm' |},
       deliveries send_text status (DataManager.websocket_connections dm))
    /\ ss_session_id summary = session_id
    /\ ss_total_readings summary
       = Z.of_nat (length (DataManager.sensor_data dm))
    /\ ss_validation_alerts summary
       = Z.of_nat (length (DataManager.validation_results dm))
    /\ ss_summary_stats summary = DataManager.get_data_summary dm'
    /\ (forall start,
          DataManager.session_start_time dm = Some start ->
          ~ (start == 0)%Q ->
          ss_session_duration summary = Some (float_sub now start))
    /\ (forall start,
          DataManager.session_start_time dm = Some start ->
          (start == 0)%Q ->
          ss_session_duration summary = None)
    /\ (DataManager.session_start_time dm = None ->
        ss_session_duration summary = None).
Proof.
  intros Hdm Hsm Hrec status dm'.
  unfold stop_session. rewrite Hdm, Hsm, Hrec. cbn [negb].
  unfold DataManager.stop_recording, DataManager._broadcast_system_status.
  rewrite broadcast_message_spec.
  destruct dm as [data results connections rec start validator].
  cbn [DataManager.sensor_data DataManager.validation_results
       DataManager.websocket_connections DataManager.recording
       DataManager.session_start_time DataManager.validator
       DataManager.set_recording DataManager.set_websocket_connections]
    in *.
  eexists. split; [reflexivity |].
  cbn [ss_session_id ss_total_readings ss_validation_alerts ss_summary_stats
       ss_session_duration sd_total_readings sd_session_duration
       sd_validation_alerts].
  repeat split.
  - intros st -> Hnonzero. unfold DataManager.truthy.
    destruct (Qeq_bool st 0) eqn:Hzero; [| reflexivity].
    exfalso. apply Hnonzero, Qeq_bool_eq, Hzero.
  - intros st -> Hzero. unfold DataManager.truthy.
    rewrite (proj2 (Qeq_bool_iff st 0) Hzero). reflexivity.
  - intros ->. reflexivity.
Qed.

Lemma stop_session_closes_the_session_witness :
  exists summary,
    fst (fst (stop_session all_delivered "5f0e" 160 161 recording_session))
    = Return summary
    /\ ss_total_readings summary = 3
    /\ ss_session_duration summary = Some (float_sub 160 100).
Proof.
  destruct (stop_session_closes_the_session
              all_delivered "5f0e" 160 161 recording_session
              (DataManager.set_session_start_time (Some 100%Q)
                 (DataManager.set_recording true three_readings))
              (SensorManager.start_all SensorManager.__init__)
              eq_refl eq_refl eq_refl)
    as (summary & Hstop & _ & Htotal & _ & _ & Hduration & _).
  exists summary. rewrite Hstop. split; [reflexivity |].
  split; [exact Htotal |].
  apply (Hduration 100%Q); [reflexivity | discriminate].
Defined.

(** X14: with the system initialised, [reset_session] always succeeds.  It
    stops the sensors, turns recording off and empties the readings and the
    alerts; it sends the system_status message of [stop_recording] only if a
    session was recording.  It does not clear the session start time and
    does not reset the validator, whose FORCE history carries over.  A second
    reset changes nothing and sends nothing. *)
Theorem reset_session_clears_the_buffers
    (send_text : WebSocket -> message -> bool)
    (now now' later later' : Q) (ev : events)
    (dm : DataManager.t) (sm : SensorManager.t) :
  data_manager ev = Some dm ->
  sensor_manager ev = Some sm ->
  let status :=
    system_status_message
      false
      (float_sub now' (DataManager.or_0 (DataManager.session_start_time dm)))
      (Z.of_nat (length (DataManager.sensor_data dm))) in
  let ev' :=
    {| sensor_manager := Some (SensorManager.stop_all sm);
       data_manager :=
         Some {| DataManager.sensor_data := [];
                 DataManager.validation_results := [];
                 DataManager.websocket_connections :=
                   if DataManager.recording dm
                   then accepting send_text status
                                  (DataManager.websocket_connections dm)
                   else DataManager.websocket_connections dm;
                 DataManager.recording := false;
                 DataManager.session_start_time :=
                   DataManager.session_start_time dm;
                 DataManager.validator := DataManager.validator dm |} |} in
  reset_session send_text now now' ev
  = (Return "Session reset successfully", ev',
     if DataManager.recording dm
     then deliveries send_text status (DataManager.websocket_connections dm)
     else [])
  /\ reset_session send_text later later' ev'
     = (Return "Session reset successfully", ev', []).
Proof.
  intros Hdm Hsm status ev'. split.
  - unfold reset_session. rewrite Hdm, Hsm.
    destruct dm as [data results connections rec start validator].
    destruct rec.
    + unfold DataManager.stop_recording, DataManager._broadcast_system_status.
      cbn [DataManager.recording]. rewrite broadcast_message_spec.
      reflexivity.
    + reflexivity.
  - unfold reset_session, ev'.
    cbn [data_manager sensor_manager DataManager.recording].
    unfold SensorManager.stop_all at 1.
    cbn [SensorManager.simulators SensorManager.stop_all].
    rewrite <- map_fmap_compose. reflexivity.
Qed.

Lemma reset_session_clears_the_buffers_witness :
  fst (fst (reset_session all_delivered 160 161 recording_session))
  = Return "Session reset successfully"
  /\ (DataManager.sensor_data <$>
        data_manager
          (snd (fst (reset_session all_delivered 160 161 recording_session))))
     = Some []
  /\ (DataManager.session_start_time <$>
        data_manager
          (snd (fst (reset_session all_delivered 160 161 recording_session))))
     = Some (Some 100%Q).
Proof.
  destruct (reset_session_clears_the_buffers
              all_delivered 160 161 170 171 recording_session
              (DataManager.set_session_start_time (Some 100%Q)
                 (DataManager.set_recording true three_readings))
              (SensorManager.start_all SensorManager.__init__)
              eq_refl eq_refl) as [Hreset _].
  rewrite Hreset. repeat split.
Defined.

(** ** Reading the stored data back *)

Lemma filter_if_given_sublist {A B : Type} (parameter : option B)
    (keeps : B -> A -> bool) (l : list A) :
  sublist (filter_if_given parameter keeps l) l.
Proof.
  destruct parameter as [b |]; simpl; [| reflexivity].
  induction l as [| x l IH]; simpl.
  - constructor.
  - destruct (keeps b x); constructor; exact IH.
Qed.

Lemma filter_if_given_In {A B : Type} (parameter : option B)
    (keeps : B -> A -> bool) (l : list A) (x : A) :
  In x (filter_if_given parameter keeps l)
  <-> In x l /\ (forall b, parameter = Some b -> keeps b x = true).
Proof.
  destruct parameter as [b |]; simpl.
  - rewrite filter_In. split.
    + intros [Hin Hkeeps]. split; [exact Hin |]. intros b' [= <-]. exact Hkeeps.
    + intros [Hin Hkeeps]. split; [exact Hin |]. apply Hkeeps. reflexivity.
  - split; [| tauto]. intros Hin. split; [exact Hin |]. discriminate.
Qed.

Lemma given_Some (parameter : option Q) (t : Q) :
  given parameter = Some t <-> parameter = Some t /\ ~ (t == 0)%Q.
Proof.
  unfold given. destruct parameter as [x |].
  - destruct (Qeq_bool x 0) eqn:Hzero.
    + split; [discriminate |]. intros [[= ->] Hnonzero].
      exfalso. apply Hnonzero, Qeq_bool_eq, Hzero.
    + split.
      * intros [= ->]. split; [reflexivity |].
        intros Heq. apply Qeq_bool_iff in Heq. congruence.
      * intros [[= ->] _]. reflexivity.
  - split; [discriminate |]. intros [Hsome _]. discriminate Hsome.
Qed.

(** X15: [get_sensor_readings] with a limit of at least 1 returns at most
    [limit] readings; they are stored readings in their stored order; each
    has the sensor type asked for and a timestamp within the bounds given,
    where a bound equal to 0 counts as not given; and a stored reading that
    has the type and is within the bounds is left out only if the limit is
    reached. *)
Theorem sensor_readings_query
    (sensor_type : option SensorType) (limit : Z)
    (start_time end_time : option Q) (ev : events) (dm : DataManager.t) :
  data_manager ev = Some dm ->
  1 <= limit ->
  exists readings,
    get_sensor_readings sensor_type limit start_time end_time ev
    = Return readings
    /\ Z.of_nat (length readings) <= limit
    /\ sublist readings (DataManager.sensor_data dm)
    /\ (forall r,
          In r readings ->
          (forall k, sensor_type = Some k -> SensorReading.sensor_type r = k)
          /\ (forall t, start_time = Some t -> ~ (t == 0)%Q ->
                        (t <= SensorReading.timestamp r)%Q)
          /\ (forall t, end_time = Some t -> ~ (t == 0)%Q ->
                        (SensorReading.timestamp r <= t)%Q))
    /\ (forall r,
          In r (DataManager.sensor_data dm) ->
          (forall k, sensor_type = Some k -> SensorReading.sensor_type r = k) ->
          (forall t, start_time = Some t -> (t <= SensorReading.timestamp r)%Q) ->
          (forall t, end_time = Some t -> (SensorReading.timestamp r <= t)%Q) ->
          In r readings \/ Z.of_nat (length readings) = limit).
Proof.
  intros Hdm Hlimit.
  set (filtered :=
         filter_if_given (given end_time)
           (fun t r => Qle_bool (SensorReading.timestamp r) t)
           (filter_if_given (given start_time)
              (fun t r => Qle_bool t (SensorReading.timestamp r))
              (filter_if_given sensor_type
                 (fun k r => bool_decide (SensorReading.sensor_type r = k))
                 (DataManager.sensor_data dm)))).
  assert (get_sensor_readings sensor_type limit start_time end_time ev
          = Return (drop (length filtered - Z.to_nat limit) filtered)) as Hget.
  { unfold get_sensor_readings. rewrite Hdm.
    change (Return (slice_from (- limit) filtered)
            = Return (drop (length filtered - Z.to_nat limit) filtered)).
    rewrite <- (Z2Nat.id limit) at 1 by lia.
    rewrite slice_from_last by lia. reflexivity. }
  assert (forall r,
            In r filtered <->
            In r (DataManager.sensor_data dm)
            /\ (forall k, sensor_type = Some k ->
                          SensorReading.sensor_type r = k)
            /\ (forall t, given start_time = Some t ->
                          (t <= SensorReading.timestamp r)%Q)
            /\ (forall t, given end_time = Some t ->
                          (SensorReading.timestamp r <= t)%Q)) as Hin.
  { intros r. unfold filtered. rewrite !filter_if_given_In. split.
    - intros [[[Hdata Hkind] Hstart] Hend]. split; [exact Hdata |].
      split; [| split].
      + intros k Hk. specialize (Hkind k Hk).
        apply bool_decide_eq_true in Hkind. exact Hkind.
      + intros t Ht. apply Qle_bool_iff, Hstart, Ht.
      + intros t Ht. apply Qle_bool_iff, Hend, Ht.
    - intros (Hdata & Hkind & Hstart & Hend).
      split; [split; [split; [exact Hdata |] |] |].
      + intros k Hk. apply bool_decide_eq_true. apply Hkind, Hk.
      + intros t Ht. apply Qle_bool_iff, Hstart, Ht.
      + intros t Ht. apply Qle_bool_iff, Hend, Ht. }
  exists (drop (length filtered - Z.to_nat limit) filtered).
  split; [exact Hget |]. split; [| split; [| split]].
  - rewrite length_drop. lia.
  - transitivity filtered; [apply sublist_drop |].
    unfold filtered.
    etransitivity; [apply filter_if_given_sublist |].
    etransitivity; apply filter_if_given_sublist.
  - intros r Hr.
    assert (In r filtered) as Hfiltered.
    { rewrite <- (take_drop (length filtered - Z.to_nat limit) filtered).
      apply in_or_app. right. exact Hr. }
    apply Hin in Hfiltered as (_ & Hkind & Hstart & Hend).
    split; [exact Hkind |]. split.
    + intros t Ht Hnonzero. apply Hstart, given_Some. split; assumption.
    + intros t Ht Hnonzero. apply Hend, given_Some. split; assumption.
  - intros r Hdata Hkind Hstart Hend.
    assert (In r filtered) as Hfiltered.
    { apply Hin. split; [exact Hdata |]. split; [exact Hkind |]. split.
      - intros t Ht. apply given_Some in Ht as [Ht _]. apply Hstart, Ht.
      - intros t Ht. apply given_Some in Ht as [Ht _]. apply Hend, Ht. }
    destruct (Nat.le_gt_cases (length filtered) (Z.to_nat limit))
      as [Hfits | Hmore].
    + left. replace (length filtered - Z.to_nat limit)%nat with 0%nat by lia.
      exact Hfiltered.
    + right. rewrite length_drop. lia.
Qed.

Lemma sensor_readings_query_witness :
  exists readings,
    get_sensor_readings (Some FORCE) 100 (Some 11%Q) None with_three_readings
    = Return readings
    /\ Z.of_nat (length readings) <= 100
    /\ sublist readings (DataManager.sensor_data three_readings).
Proof.
  destruct (sensor_readings_query (Some FORCE) 100 (Some 11%Q) None
              with_three_readings three_readings eq_refl)
    as (readings & Hget & Hlen & Hsub & _); [lia |].
  exists readings. split; [exact Hget |]. split; [exact Hlen | exact Hsub].
Defined.

(** X16: [get_validation_results] with a limit of at least 1 returns the
    most recent alerts, in the order they were recorded: the recorded alerts
    are some older ones followed by the ones returned, and the number
    returned is the smaller of the limit and the number recorded. *)
Theorem validation_results_query
    (limit : Z) (ev : events) (dm : DataManager.t) :
  data_manager ev = Some dm ->
  1 <= limit ->
  exists older recent,
    get_validation_results limit ev = Return recent
    /\ DataManager.validation_results dm = older ++ recent
    /\ Z.of_nat (length recent)
       = Z.min limit (Z.of_nat (length (DataManager.validation_results dm))).
Proof.
  intros Hdm Hlimit. unfold get_validation_results. rewrite Hdm.
  assert (slice_from (- limit) (DataManager.validation_results dm)
          = drop (length (DataManager.validation_results dm) - Z.to_nat limit)
                 (DataManager.validation_results dm)) as ->.
  { rewrite <- (Z2Nat.id limit) at 1 by lia. apply slice_from_last. lia. }
  exists (take (length (DataManager.validation_results dm) - Z.to_nat limit)
               (DataManager.validation_results dm)).
  eexists. split; [reflexivity |]. split.
  - symmetry. apply take_drop.
  - rewrite length_drop. lia.
Qed.

(** Three alerts are recorded, at the times 1, 2 and 4, and the two most
    recent are asked for. *)
Lemma validation_results_query_witness :
  map ValidationResult.timestamp (DataManager.validation_results three_alerts)
  = [1; 2; 4]%Q
  /\ exists older recent,
       get_validation_results 2 with_three_alerts = Return recent
       /\ DataManager.validation_results three_alerts = older ++ recent
       /\ Z.of_nat (length recent)
          = Z.min 2 (Z.of_nat (length (DataManager.validation_results
                                         three_alerts))).
Proof.
  split; [vm_compute; reflexivity |].
  apply (validation_results_query 2 with_three_alerts three_alerts eq_refl).
  lia.
Defined.

Lemma filter_nil_none {A : Type} (p : A -> bool) (l : list A) :
  List.filter p l = [] -> forall x, In x l -> p x = false.
Proof.
  induction l as [| y l IH]; simpl; intros Hnil x Hin; [contradiction |].
  destruct (p y) eqn:Hy; [discriminate |].
  destruct Hin as [<- | Hin]; [exact Hy | apply IH; assumption].
Qed.

(** The last element that a filter keeps: it is kept, and nothing after it
    is. *)
Lemma last_filter_Some {A : Type} (p : A -> bool) (l : list A) (x : A) :
  list.last (List.filter p l) = Some x ->
  exists before after,
    l = before ++ x :: after
    /\ p x = true
    /\ (forall y, In y after -> p y = false).
Proof.
  induction l as [| y l IH]; simpl; [discriminate |].
  destruct (p y) eqn:Hy.
  - destruct (List.filter p l) as [| z kept] eqn:Hkept.
    + simpl. intros [= <-]. exists [], l.
      split; [reflexivity |]. split; [exact Hy |].
      apply filter_nil_none, Hkept.
    + intros Hlast.
      destruct IH as (before & after & -> & Hx & Hafter); [exact Hlast |].
      exists (y :: before), after. repeat split; assumption.
  - intros Hlast.
    destruct (IH Hlast) as (before & after & -> & Hx & Hafter).
    exists (y :: before), after. repeat split; assumption.
Qed.

Lemma latest_by_type_lookup (sensor_data : list SensorReading.t)
    (k : SensorType) :
  latest_by_type sensor_data [FORCE; MOTOR; CAMERA] ∅ !! SensorType_value k
  = Some (list.last
            (List.filter
               (fun r => bool_decide (SensorReading.sensor_type r = k))
               sensor_data)).
Proof.
  cbn [latest_by_type].
  assert (forall l : list SensorReading.t,
            match l with [] => None | _ => index l (-1) end = list.last l)
    as Hlatest.
  { intros l. rewrite index_minus_1_last. destruct l; reflexivity. }
  rewrite !Hlatest.
  destruct k; cbn [SensorType_value].
  - rewrite lookup_insert_ne by discriminate.
    rewrite lookup_insert_ne by discriminate.
    apply lookup_insert_eq.
  - rewrite lookup_insert_ne by discriminate. apply lookup_insert_eq.
  - apply lookup_insert_eq.
Qed.

(** X17: [get_latest_readings] has an entry for each of the three sensor
    types.  An entry that holds a reading holds a stored reading of that
    type after which no reading of that type is stored; an entry is [None]
    exactly when no stored reading has that type. *)
Theorem latest_readings_are_the_last_of_their_type
    (ev : events) (dm : DataManager.t) (k : SensorType) :
  data_manager ev = Some dm ->
  exists response entry,
    get_latest_readings ev = Return response
    /\ lr_total_readings response
       = Z.of_nat (length (DataManager.sensor_data dm))
    /\ latest_readings response !! SensorType_value k = Some entry
    /\ (forall r,
          entry = Some r ->
          SensorReading.sensor_type r = k
          /\ exists before after,
               DataManager.sensor_data dm = before ++ r :: after
               /\ (forall r', In r' after ->
                              SensorReading.sensor_type r' <> k))
    /\ (entry = None <->
        forall r, In r (DataManager.sensor_data dm) ->
                  SensorReading.sensor_type r <> k).
Proof.
  intros Hdm. unfold get_latest_readings. rewrite Hdm.
  eexists. eexists. split; [reflexivity |].
  cbn [lr_total_readings latest_readings].
  split; [reflexivity |]. split; [apply latest_by_type_lookup |]. split.
  - intros r Hentry.
    apply last_filter_Some in Hentry as (before & after & Hsplit & Hr & Hafter).
    apply bool_decide_eq_true in Hr. split; [exact Hr |].
    exists before, after. split; [exact Hsplit |].
    intros r' Hin Hk. specialize (Hafter r' Hin).
    apply bool_decide_eq_false in Hafter. contradiction.
  - split.
    + intros Hnone r Hin Hk.
      destruct (List.filter
                  (fun r => bool_decide (SensorReading.sensor_type r = k))
                  (DataManager.sensor_data dm)) as [| z kept] eqn:Hkept.
      * pose proof (filter_nil_none _ _ Hkept r Hin) as Hr.
        apply bool_decide_eq_false in Hr. contradiction.
      * assert (is_Some (list.last (z :: kept))) as [x Hx]
          by (rewrite last_is_Some; discriminate).
        congruence.
    + intros Hnone.
      destruct (list.last _) as [x |] eqn:Hlast; [| reflexivity].
      apply last_filter_Some in Hlast as (before & after & Hsplit & Hx & _).
      apply bool_decide_eq_true in Hx. exfalso.
      apply (Hnone x); [| exact Hx].
      rewrite Hsplit. apply in_or_app. right. left. reflexivity.
Qed.

Lemma latest_readings_are_the_last_of_their_type_witness :
  exists response entry,
    get_latest_readings with_three_readings = Return response
    /\ lr_total_readings response = 3
    /\ latest_readings response !! "camera" = Some entry
    /\ entry = None.
Proof.
  destruct (latest_readings_are_the_last_of_their_type
              with_three_readings three_readings CAMERA eq_refl)
    as (response & entry & Hget & Htotal & Hentry & _ & Hnone).
  exists response, entry. split; [exact Hget |]. split; [exact Htotal |].
  split; [exact Hentry |]. apply Hnone.
  simpl. intros r [<- | [<- | [<- | []]]]; discriminate.
Defined.

(** X18: [get_session_summary] needs the data manager only and changes
    nothing.  It reports the number of readings and alerts stored, and as
    duration the timestamp of the last stored reading minus that of the
    first, not the time on the clock since the session started: [None] with
    fewer than two readings stored, so also while a session with one reading
    is recording. *)
Theorem session_summary_duration_is_the_span
    (session_id : string) (ev : events) (dm : DataManager.t) :
  data_manager ev = Some dm ->
  exists summary,
    get_session_summary session_id ev = Return summary
    /\ ss_total_readings summary
       = Z.of_nat (length (DataManager.sensor_data dm))
    /\ ss_validation_alerts summary
       = Z.of_nat (length (DataManager.validation_results dm))
    /\ ss_summary_stats summary = DataManager.get_data_summary dm
    /\ ((length (DataManager.sensor_data dm) < 2)%nat ->
        ss_session_duration summary = None)
    /\ (forall first latest,
          (2 <= length (DataManager.sensor_data dm))%nat ->
          head (DataManager.sensor_data dm) = Some first ->
          list.last (DataManager.sensor_data dm) = Some latest ->
          ss_session_duration summary
          = Some (float_sub (SensorReading.timestamp latest)
                            (SensorReading.timestamp first))).
Proof.
  intros Hdm. unfold get_session_summary. rewrite Hdm.
  eexists. split; [reflexivity |].
  cbn [ss_total_readings ss_validation_alerts ss_summary_stats
       ss_session_duration].
  split; [reflexivity |]. split; [reflexivity |]. split; [reflexivity |].
  unfold DataManager.get_data_summary.
  destruct (DataManager.sensor_data dm) as [| reading readings] eqn:Hdata.
  - split; [reflexivity |]. intros first latest Htwo. simpl in Htwo. lia.
  - cbn [get_session_duration_seconds session_duration_seconds]. split.
    + intros Hshort.
      destruct (Nat.ltb_spec 1 (length (reading :: readings))) as [? | _];
        [lia | reflexivity].
    + intros first latest Htwo Hfirst Hlast.
      destruct (Nat.ltb_spec 1 (length (reading :: readings))) as [_ | ?];
        [| lia].
      rewrite index_0_head, index_minus_1_last, Hfirst, Hlast. reflexivity.
Qed.

Lemma session_summary_duration_is_the_span_witness :
  exists summary,
    get_session_summary "5f0f" recording_session = Return summary
    /\ ss_total_readings summary = 3
    /\ ss_session_duration summary = Some (float_sub 17 10).
Proof.
  destruct (session_summary_duration_is_the_span
              "5f0f" recording_session
              (DataManager.set_session_start_time (Some 100%Q)
                 (DataManager.set_recording true three_readings))
              eq_refl)
    as (summary & Hget & Htotal & _ & _ & _ & Hspan).
  exists summary. split; [exact Hget |]. split; [exact Htotal |].
  apply (Hspan (force_reading 10 15) (force_reading 17 16)).
  - simpl. lia.
  - reflexivity.
  - reflexivity.
Defined.
